(** * retriever_types: a shallow embedding of
    google/generativeai/types/retriever_types.py

    The module is a client-side layer over a remote retriever service.  The
    development below embeds the parts of it that carry logic of their own:
    the name check [valid_name], the lookup tables [_OPERATOR] and [_STATE],
    the metadata normaliser [make_custom_metadata], the chunk builder
    [Document._make_chunk], the constructor [Chunk.__init__], the bound check
    of the query methods and the field-mask update of the three entities.

    Python objects live in a store and are addressed by reference, exceptions
    are values of a sum type, and every remote call is appended to a log, so
    that "no remote call was issued" and "the same instance is returned" are
    statements about the final state. *)

From Stdlib Require Import ZArith Ascii String List Bool Lia.
From stdpp Require Import base option gmap strings list.

Import ListNotations.
Local Open Scope string_scope.
Local Open Scope list_scope.
Set Warnings "-register-all".

(** ** Strings *)

(** A Python [str] is modelled by [string]; its characters are the 8-bit
    code units of [ascii]. *)

Definition code (c : ascii) : nat := nat_of_ascii c.

Definition is_upper (c : ascii) : bool :=
  (65 <=? code c)%nat && (code c <=? 90)%nat.
Definition is_lower (c : ascii) : bool :=
  (97 <=? code c)%nat && (code c <=? 122)%nat.
Definition is_digit (c : ascii) : bool :=
  (48 <=? code c)%nat && (code c <=? 57)%nat.

(** [str.lower] on the ASCII range: [A-Z] go to [a-z], nothing else moves. *)
Definition lower_char (c : ascii) : ascii :=
  if is_upper c then ascii_of_nat (code c + 32) else c.

Fixpoint lower (s : string) : string :=
  match s with
  | EmptyString => EmptyString
  | String c s' => String (lower_char c) (lower s')
  end.

Definition newline : ascii := ascii_of_nat 10.

(** ** Regular expressions, as far as [_VALID_NAME] uses them *)

Module Re.

Inductive regex : Type :=
| Class (p : ascii -> bool)            (* a bracket expression  [...]  *)
| Cat (r1 r2 : regex)                  (* r1 r2 *)
| Repeat (r : regex) (lo hi : nat)     (* r{lo,hi}, greedy *)
| Dollar.                              (* $ *)

(** Without [re.MULTILINE], [$] matches at the end of the string and just
    before a newline that is the last character. *)
Definition at_end (s : string) : bool :=
  match s with
  | EmptyString => true
  | String c EmptyString => Ascii.eqb c newline
  | _ => false
  end.

(** [iterate step lo hi s]: the strings left after between [lo] and [hi]
    rounds of [step], the longest runs first. *)
Fixpoint iterate (step : string -> list string) (lo hi : nat) (s : string)
  : list string :=
  match hi with
  | O => if Nat.eqb lo 0 then [s] else []
  | S hi' =>
      flat_map (iterate step (Nat.pred lo) hi') (step s)
      ++ (if Nat.eqb lo 0 then [s] else [])
  end.

(** [run r s]: every suffix of [s] that can remain once [r] has matched a
    prefix of [s], in the order a backtracking matcher tries them. *)
Fixpoint run (r : regex) (s : string) : list string :=
  match r with
  | Class p =>
      match s with
      | String c s' => if p c then [s'] else []
      | EmptyString => []
      end
  | Cat r1 r2 => flat_map (run r2) (run r1 s)
  | Repeat r' lo hi => iterate (run r') lo hi s
  | Dollar => if at_end s then [s] else []
  end.

(** [re.match(r, s)] anchors at the start of [s] only; the result is a match
    object (truthy) or [None]. Only its truth value is kept. *)
Definition re_match (r : regex) (s : string) : bool :=
  match run r s with
  | [] => false
  | _ :: _ => true
  end.

End Re.

(** ** [valid_name] *)

(** [[a-z0-9]] *)
Definition alnum (c : ascii) : bool := is_lower c || is_digit c.

(** [[a-z0-9-]] *)
Definition slug (c : ascii) : bool := alnum c || Ascii.eqb c "-"%char.

(** [_VALID_NAME = r"[a-z0-9]([a-z0-9-]{0,38}[a-z0-9])$"] *)
Definition _VALID_NAME : Re.regex :=
  Re.Cat (Re.Class alnum)
    (Re.Cat (Re.Cat (Re.Repeat (Re.Class slug) 0 38) (Re.Class alnum))
       Re.Dollar).

(** [return re.match(_VALID_NAME, name) and len(name) < 40], read for its
    truth value. *)
Definition valid_name (name : string) : bool :=
  Re.re_match _VALID_NAME name && (String.length name <? 40)%nat.

(** The slug grammar as the specification words it: lowercase alphanumerics
    and hyphens only, length 1 to 39, not hyphens only. *)
Fixpoint string_forallb (p : ascii -> bool) (s : string) : bool :=
  match s with
  | EmptyString => true
  | String c s' => p c && string_forallb p s'
  end.

Definition slug_grammar (s : string) : bool :=
  string_forallb slug s
  && (1 <=? String.length s)%nat && (String.length s <=? 39)%nat
  && negb (string_forallb (fun c => Ascii.eqb c "-"%char) s).

(** ** Enumerations of the wire library *)

(** [Operator = glm.Condition.Operator] and [State = glm.Chunk.State] are
    integer enumerations of the imported wire library: a member hashes and
    compares as its integer.  [GREATER] belongs to the enumeration although
    this module never names it. *)
Inductive Operator : Type :=
| OPERATOR_UNSPECIFIED | LESS | LESS_EQUAL | EQUAL | GREATER_EQUAL | GREATER
| NOT_EQUAL | INCLUDES | EXCLUDES.

Inductive State : Type :=
| STATE_UNSPECIFIED | STATE_PENDING_PROCESSING | STATE_ACTIVE | STATE_FAILED.

Definition Operator_value (o : Operator) : Z :=
  match o with
  | OPERATOR_UNSPECIFIED => 0 | LESS => 1 | LESS_EQUAL => 2 | EQUAL => 3
  | GREATER_EQUAL => 4 | GREATER => 5 | NOT_EQUAL => 6 | INCLUDES => 7
  | EXCLUDES => 8
  end%Z.

Definition State_value (s : State) : Z :=
  match s with
  | STATE_UNSPECIFIED => 0 | STATE_PENDING_PROCESSING => 1
  | STATE_ACTIVE => 2 | STATE_FAILED => 10
  end%Z.

(** ** Python dictionaries, in insertion order *)

Module PyDict.
Section Dict.
Context {K V : Type} (eqb : K -> K -> bool).

(** [d[k] = v]: an equal key keeps its place (and the key object first
    stored) and takes the new value; a new key goes last. *)
Fixpoint set (d : list (K * V)) (k : K) (v : V) : list (K * V) :=
  match d with
  | [] => [(k, v)]
  | (k', v') :: d' =>
      if eqb k' k then (k', v) :: d' else (k', v') :: set d' k v
  end.

(** [d.get(k)] *)
Fixpoint get (d : list (K * V)) (k : K) : option V :=
  match d with
  | [] => None
  | (k', v') :: d' => if eqb k' k then Some v' else get d' k
  end.

(** A dictionary display [{k1: v1, k2: v2, ...}] stores its items from
    left to right. *)
Definition literal (items : list (K * V)) : list (K * V) :=
  fold_left (fun d kv => set d (fst kv) (snd kv)) items [].

Definition keys (d : list (K * V)) : list K := map fst d.
End Dict.
End PyDict.

(** ** Keys of the lookup tables *)

(** [OperatorOptions = Union[str, int, Operator]] and
    [StateOptions = Union[str, int, State]]. *)
Inductive options (E : Type) : Type :=
| OfEnum (e : E)
| OfInt (z : Z)
| OfStr (s : string).
Arguments OfEnum {E} e.
Arguments OfInt {E} z.
Arguments OfStr {E} s.

Definition OperatorOptions : Type := options Operator.
Definition StateOptions : Type := options State.

Section Keys.
Context {E : Type} (value : E -> Z).

(** Equality of dictionary keys: an enumeration member is its integer, and
    no string equals an integer. *)
Definition key_eqb (k1 k2 : options E) : bool :=
  match k1, k2 with
  | OfStr s1, OfStr s2 => String.eqb s1 s2
  | OfStr _, _ | _, OfStr _ => false
  | OfEnum e1, OfEnum e2 => Z.eqb (value e1) (value e2)
  | OfEnum e1, OfInt z2 => Z.eqb (value e1) z2
  | OfInt z1, OfEnum e2 => Z.eqb z1 (value e2)
  | OfInt z1, OfInt z2 => Z.eqb z1 z2
  end.
End Keys.

Definition _OPERATOR_items : list (OperatorOptions * Operator) :=
  [ (OfEnum OPERATOR_UNSPECIFIED, OPERATOR_UNSPECIFIED);
    (OfInt 0, OPERATOR_UNSPECIFIED);
    (OfStr "operator_unspecified", OPERATOR_UNSPECIFIED);
    (OfStr "unspecified", OPERATOR_UNSPECIFIED);
    (OfEnum LESS, LESS);
    (OfInt 1, LESS);
    (OfStr "operator_less", LESS);
    (OfStr "less", LESS);
    (OfStr "<", LESS);
    (OfEnum LESS_EQUAL, LESS_EQUAL);
    (OfInt 2, LESS_EQUAL);
    (OfStr "operator_less_equal", LESS_EQUAL);
    (OfStr "less_equal", LESS_EQUAL);
    (OfStr "<=", LESS_EQUAL);
    (OfEnum EQUAL, EQUAL);
    (OfInt 3, EQUAL);
    (OfStr "operator_equal", EQUAL);
    (OfStr "equal", EQUAL);
    (OfStr "==", EQUAL);
    (OfEnum GREATER_EQUAL, GREATER_EQUAL);
    (OfInt 4, GREATER_EQUAL);
    (OfStr "operator_greater_equal", GREATER_EQUAL);
    (OfStr "greater_equal", GREATER_EQUAL);
    (OfEnum NOT_EQUAL, NOT_EQUAL);
    (OfInt 5, NOT_EQUAL);
    (OfStr "operator_not_equal", NOT_EQUAL);
    (OfStr "not_equal", NOT_EQUAL);
    (OfStr "!=", NOT_EQUAL);
    (OfEnum INCLUDES, INCLUDES);
    (OfInt 6, INCLUDES);
    (OfStr "operator_includes", INCLUDES);
    (OfStr "includes", INCLUDES);
    (OfEnum EXCLUDES, EXCLUDES);
    (OfInt 6, EXCLUDES);
    (OfStr "operator_excludes", EXCLUDES);
    (OfStr "excludes", EXCLUDES);
    (OfStr "not in", EXCLUDES) ].

Definition _STATE_items : list (StateOptions * State) :=
  [ (OfEnum STATE_UNSPECIFIED, STATE_UNSPECIFIED);
    (OfInt 0, STATE_UNSPECIFIED);
    (OfStr "state_unspecifed", STATE_UNSPECIFIED);
    (OfStr "unspecified", STATE_UNSPECIFIED);
    (OfEnum STATE_PENDING_PROCESSING, STATE_PENDING_PROCESSING);
    (OfInt 1, STATE_PENDING_PROCESSING);
    (OfStr "pending_processing", STATE_PENDING_PROCESSING);
    (OfStr "pending", STATE_PENDING_PROCESSING);
    (OfEnum STATE_ACTIVE, STATE_ACTIVE);
    (OfInt 2, STATE_ACTIVE);
    (OfStr "state_active", STATE_ACTIVE);
    (OfStr "active", STATE_ACTIVE);
    (OfEnum STATE_FAILED, STATE_FAILED);
    (OfInt 10, STATE_FAILED);
    (OfStr "state_failed", STATE_FAILED);
    (OfStr "failed", STATE_FAILED) ].

Definition _OPERATOR : list (OperatorOptions * Operator) :=
  PyDict.literal (key_eqb Operator_value) _OPERATOR_items.

Definition _STATE : list (StateOptions * State) :=
  PyDict.literal (key_eqb State_value) _STATE_items.

(** ** Values, exceptions and the store *)

Definition loc : Type := positive.

(** The Python values the module handles.  A wire message is kept as the
    name of its type with the fields it was built from; the instances that
    are mutated in place ([Corpus], [Document], [Chunk], [ChunkData]) live in
    the store and are denoted by a reference. *)
Inductive val : Type :=
| VNone
| VNum (z : Z)                                   (* a number, by its value *)
| VStr (s : string)
| VList (xs : list val)
| VTuple (xs : list val)
| VDict (items : list (string * val))            (* dict with str keys *)
| VCustomMetadata (key value : val)          (* CustomMetadata(key, value) *)
| VProto (message : string) (fields : list (string * val))
| VCondition (value operation : val)         (* Condition(value, operation) *)
| VMetadataFilter (key conditions : val)
    (* MetadataFilter(key, conditions) *)
| VOperator (o : Operator)
| VState (s : State)
| VDatetime (t : Z)                              (* a datetime.datetime *)
| VRef (l : loc)
| VObject (type_name : string).
(* [VObject] stands for an instance of a type not listed above, which is not
   a string, a number, an iterable or a mapping. *)

Inductive value_error : Type :=
| InvalidConditionValue (v : val)
| InvalidMetadataValue (v : val)
| InvalidMetadataInput (v : val)
| OnlyDisplayName (entity : string)
| OnlyChunkData (item : string)
| ResultsCountBounds
| TupleLength (length : nat) (chunk : val)
| TimeFormat (v : val).

Inductive exn : Type :=
| ValueError (e : value_error)
| TypeError (v : val)
| KeyError (k : val)
| AttributeError (name : string)
| OverflowError
| RemoteError (status : Z).

Inductive result (A : Type) : Type :=
| Ok (a : A)
| Raise (e : exn).
Arguments Ok {A} a.
Arguments Raise {A} e.

Definition bind_result {A B : Type} (r : result A) (k : A -> result B)
  : result B :=
  match r with
  | Ok a => k a
  | Raise e => Raise e
  end.

Fixpoint map_result {A B : Type} (f : A -> result B) (xs : list A)
  : result (list B) :=
  match xs with
  | [] => Ok []
  | x :: xs' =>
      bind_result (f x) (fun y =>
      bind_result (map_result f xs') (fun ys => Ok (y :: ys)))
  end.

(** Truth value of an object, as [if x:] and [x or y] test it. *)
Definition truthy (v : val) : bool :=
  match v with
  | VNone => false
  | VNum z => negb (Z.eqb z 0)
  | VStr s => negb (String.eqb s "")
  | VList xs | VTuple xs => negb (Nat.eqb (List.length xs) 0)
  | VDict items => negb (Nat.eqb (List.length items) 0)
  | VProto _ fields => negb (Nat.eqb (List.length fields) 0)
  | VOperator o => negb (Z.eqb (Operator_value o) 0)
  | VState s => negb (Z.eqb (State_value s) 0)
  | VCustomMetadata _ _ | VCondition _ _ | VMetadataFilter _ _
  | VDatetime _ | VRef _ | VObject _ => true
  end.

(** [x or y] *)
Definition por (x y : val) : val := if truthy x then x else y.

(** [isinstance(v, (int, float))], with the number: the members of the two
    enumerations are integers too. *)
Definition number_of (v : val) : option Z :=
  match v with
  | VNum z => Some z
  | VOperator o => Some (Operator_value o)
  | VState s => Some (State_value s)
  | _ => None
  end.

(** [float(z)] of an integer: the double nearest to [z], a tie going to the
    even significand, kept by its value, which is an integer as soon as
    [z] does not fit in 53 bits; [OverflowError] when that double would be
    2^1024 or more.  A number that is a double already is its own
    [float]. *)
Definition float_ (z : Z) : result Z :=
  let a := Z.abs z in
  let shift := (Z.log2 a - 52)%Z in
  if (shift <=? 0)%Z then Ok z
  else
    let q := Z.shiftr a shift in
    let r := (a - Z.shiftl q shift)%Z in
    let half := Z.shiftl 1 (shift - 1) in
    let q :=
      if (half <? r)%Z || ((r =? half)%Z && Z.odd q) then (q + 1)%Z else q in
    let f := Z.shiftl q shift in
    if (Z.shiftl 1 1024 <=? f)%Z then Raise OverflowError
    else Ok (Z.sgn z * f)%Z.
Arguments float_ : simpl never.

(** An instance: its class and its attribute dictionary. *)
Record obj : Type := Obj { cls : string; attrs : gmap string val }.

(** Requests sent to the remote service.  The constructors of the wire
    library are taken to accept what they are given: they are applied to
    values of the annotated types. *)
Inductive remote_call : Type :=
| update_corpus (corpus : val) (update_mask : list string)
| update_document (document : val) (update_mask : list string)
| update_chunk (chunk : val) (update_mask : list string)
| query_corpus (name query : val) (metadata_filters : list val)
    (results_count : val)
| query_document (name query : val) (metadata_filters : list val)
    (results_count : val).

(** The store: the instances, the next free reference, and the requests sent
    so far, oldest first. *)
Record store : Type :=
  Store { heap : gmap loc obj; next : loc; calls : list remote_call }.

(** A computation reads and writes the store and returns or raises. *)
Definition M (A : Type) : Type := store -> result A * store.

Definition ret {A : Type} (a : A) : M A := fun st => (Ok a, st).
Definition raise {A : Type} (e : exn) : M A := fun st => (Raise e, st).
Definition bind {A B : Type} (m : M A) (k : A -> M B) : M B :=
  fun st =>
    match m st with
    | (Ok a, st') => k a st'
    | (Raise e, st') => (Raise e, st')
    end.
Definition lift {A : Type} (r : result A) : M A := fun st => (r, st).

Declare Scope py_scope.
Delimit Scope py_scope with py.
Notation "x <- m ;; k" := (bind m (fun x => k))
  (at level 90, m at next level, right associativity) : py_scope.
Notation "m ;;; k" := (bind m (fun _ => k))
  (at level 90, right associativity) : py_scope.
Local Open Scope py_scope.

(** [for x in xs: body x] *)
Fixpoint for_each {A : Type} (xs : list A) (body : A -> M unit) : M unit :=
  match xs with
  | [] => ret tt
  | x :: xs' => body x ;;; for_each xs' body
  end.

(** [[f(x) for x in xs]] *)
Fixpoint map_M {A B : Type} (f : A -> M B) (xs : list A) : M (list B) :=
  match xs with
  | [] => ret []
  | x :: xs' => y <- f x ;; ys <- map_M f xs' ;; ret (y :: ys)
  end.

(** [getattr(o, name)] on an attribute that lives in the instance: the
    methods read and set the fields of the dataclasses, none of which has a
    default in its class.  The names that the classes define (the methods,
    the property [permissions] of [Corpus]) are outside this model, and the
    properties below ask for fields only. *)
Definition getattr (o : val) (name : string) : M val :=
  fun st =>
    match o with
    | VRef l =>
        match heap st !! l with
        | Some ob =>
            match attrs ob !! name with
            | Some v => (Ok v, st)
            | None => (Raise (AttributeError name), st)
            end
        | None => (Raise (AttributeError name), st)
        end
    | _ => (Raise (AttributeError name), st)
    end.

(** [setattr(o, name, v)], on a field as well. *)
Definition setattr (o : val) (name : string) (v : val) : M unit :=
  fun st =>
    match o with
    | VRef l =>
        match heap st !! l with
        | Some ob =>
            (Ok tt,
             Store (<[l := Obj (cls ob) (<[name := v]> (attrs ob))]> (heap st))
               (next st) (calls st))
        | None => (Raise (AttributeError name), st)
        end
    | _ => (Raise (AttributeError name), st)
    end.

(** A new instance of class [c] with the attributes [fields]. *)
Definition new (c : string) (fields : list (string * val)) : M val :=
  fun st =>
    (Ok (VRef (next st)),
     Store (<[next st := Obj c (list_to_map fields)]> (heap st))
       (Pos.succ (next st)) (calls st)).

(** The remote service, as the client stub shows it: a request is answered
    by a response or by an error. *)
Definition client : Type := remote_call -> result val.

Definition remote (c : client) (rc : remote_call) : M val :=
  fun st => (c rc, Store (heap st) (next st) (calls st ++ [rc])).

(** ** [to_operator] and [to_state] *)

(** The key as the value that [KeyError] reports. *)
Definition key_val {E : Type} (value : E -> Z) (k : options E) : val :=
  match k with
  | OfEnum e => VNum (value e)
  | OfInt z => VNum z
  | OfStr s => VStr s
  end.

(** [_OPERATOR[x]], after [x = x.lower()] when [x] is a string; a missing key
    raises [KeyError]. *)
Definition to_operator (x : OperatorOptions) : result Operator :=
  let x := match x with OfStr s => OfStr (lower s) | _ => x end in
  match PyDict.get (key_eqb Operator_value) _OPERATOR x with
  | Some o => Ok o
  | None => Raise (KeyError (key_val Operator_value x))
  end.

Definition to_state (x : StateOptions) : result State :=
  let x := match x with OfStr s => OfStr (lower s) | _ => x end in
  match PyDict.get (key_eqb State_value) _STATE x with
  | Some s => Ok s
  | None => Raise (KeyError (key_val State_value x))
  end.

(** ** Iteration and dictionaries of values *)

(** [for x in v]: the items of a list or tuple, the characters of a string,
    the keys of a dictionary; anything else is not iterable. *)
Fixpoint chars (s : string) : list val :=
  match s with
  | EmptyString => []
  | String c s' => VStr (String c EmptyString) :: chars s'
  end.

Definition iter (v : val) : result (list val) :=
  match v with
  | VList xs | VTuple xs => Ok xs
  | VStr s => Ok (chars s)
  | VDict items => Ok (map (fun kv => VStr (fst kv)) items)
  | _ => Raise (TypeError v)
  end.

(** [d.get(k, None)] and [d[k]] on a dictionary with string keys. *)
Definition dict_get (items : list (string * val)) (k : string) : val :=
  match PyDict.get String.eqb items k with
  | Some v => v
  | None => VNone
  end.

Definition dict_item (items : list (string * val)) (k : string) : result val :=
  match PyDict.get String.eqb items k with
  | Some v => Ok v
  | None => Raise (KeyError (VStr k))
  end.

(** [type(m).to_dict(m)] of the wire library: the fields of the message,
    nested messages turned into dictionaries as well. *)
Fixpoint to_dict (v : val) : val :=
  match v with
  | VProto _ fields =>
      VDict (map (fun kv => let '(k, x) := kv in (k, to_dict x)) fields)
  | VList xs => VList (map to_dict xs)
  | _ => v
  end.

(** ** [MetadataFilter] and [CustomMetadata] *)

Module MetadataFilter.

(** The branch on [c.value]: a string, a number, or an error. *)
Definition set_value (kwargs : list (string * val)) (value : val)
  : result (list (string * val)) :=
  match value, number_of value with
  | VStr _, _ => Ok (PyDict.set String.eqb kwargs "string_value" value)
  | _, Some z =>
      bind_result (float_ z) (fun f =>
      Ok (PyDict.set String.eqb kwargs "numeric_value" (VNum f)))
  | _, None => Raise (ValueError (InvalidConditionValue value))
  end.

(** One round of the loop of [_to_proto]: [kwargs] is the dictionary that
    the method creates once, before the loop, and [conditions] the list it
    appends to.  A [CustomMetadata] has a [value] and no [operation]. *)
Definition step (acc : list (string * val) * list val) (c : val)
  : result (list (string * val) * list val) :=
  let '(kwargs, conditions) := acc in
  match c with
  | VCondition value operation =>
      bind_result (set_value kwargs value) (fun kwargs =>
      let kwargs := PyDict.set String.eqb kwargs "operation" operation in
      Ok (kwargs, conditions ++ [VProto "Condition" kwargs]))
  | VCustomMetadata _ value =>
      bind_result (set_value kwargs value) (fun _ =>
      Raise (AttributeError "operation"))
  | _ => Raise (AttributeError "value")
  end.

Fixpoint loop (acc : list (string * val) * list val) (cs : list val)
  : result (list (string * val) * list val) :=
  match cs with
  | [] => Ok acc
  | c :: cs' => bind_result (step acc c) (fun acc' => loop acc' cs')
  end.

Definition _to_proto (self : val) : result val :=
  match self with
  | VMetadataFilter key conditions =>
      bind_result (iter conditions) (fun cs =>
      bind_result (loop ([], []) cs) (fun acc =>
      Ok (VProto "MetadataFilter"
            [("key", key); ("conditions", VList (snd acc))])))
  | _ => Raise (AttributeError "_to_proto")
  end.

End MetadataFilter.

Module CustomMetadata.

Definition _to_proto (self : val) : result val :=
  match self with
  | VCustomMetadata key value =>
      bind_result
        (match value, number_of value with
         | VStr _, _ => Ok [("string_value", value)]
         | VDict _, _ => Ok [("string_list_value", value)]
         | (VList _ | VTuple _), _ =>
             Ok [("string_list_value",
                  VProto "StringList" [("values", value)])]
         | _, Some z =>
             bind_result (float_ z) (fun f => Ok [("numeric_value", VNum f)])
         | _, None => Raise (ValueError (InvalidMetadataValue value))
         end)
        (fun kwargs => Ok (VProto "CustomMetadata" (("key", key) :: kwargs)))
  | _ => Raise (AttributeError "_to_proto")
  end.

Definition _from_dict (cm : list (string * val)) : result val :=
  bind_result (dict_item cm "key") (fun key =>
  let value :=
    por (dict_get cm "value")
      (por (dict_get cm "string_value")
         (por (dict_get cm "string_list_value")
            (dict_get cm "numeric_value"))) in
  Ok (VCustomMetadata key value)).

Definition _to_dict (self : val) : result val :=
  match self with
  | VCustomMetadata _ _ =>
      bind_result (_to_proto self) (fun proto => Ok (to_dict proto))
  | _ => Raise (AttributeError "_to_dict")
  end.

End CustomMetadata.

(** [isinstance(v, glm.<message>)] *)
Definition is_proto (message : string) (v : val) : bool :=
  match v with
  | VProto m _ => String.eqb m message
  | _ => false
  end.

Definition make_custom_metadata (cm : val) : result val :=
  match cm with
  | VCustomMetadata _ _ => Ok cm
  | _ =>
      let cm := if is_proto "CustomMetadata" cm then to_dict cm else cm in
      match cm with
      | VDict items => CustomMetadata._from_dict items
      | _ => Raise (ValueError (InvalidMetadataInput cm))
      end
  end.

(** ** Update paths *)

(** [flatten_update_paths] is imported from [google.generativeai.utils].
    The update methods below take it as a parameter; [utils] gives the
    function that the specification describes, for the runs on sample
    stores. *)
Module utils.

(** Modelled from the spec: [flatten_update_paths] of
    [google.generativeai.utils].  A value that is a mapping is descended
    into and the keys below it are prefixed with the parent key and a dot;
    any other value is a leaf; the result is a dictionary in first-encounter,
    depth-first order. *)
Fixpoint flatten_value (key : string) (value : val)
  (new_updates : list (string * val)) : list (string * val) :=
  match value with
  | VDict items =>
      let sub :=
        (fix go (items : list (string * val)) (sub : list (string * val)) :=
           match items with
           | [] => sub
           | (k, v) :: rest => go rest (flatten_value k v sub)
           end) items [] in
      fold_left
        (fun acc kv =>
           PyDict.set String.eqb acc (key ++ "." ++ fst kv)%string (snd kv))
        sub new_updates
  | _ => PyDict.set String.eqb new_updates key value
  end.

Definition flatten_update_paths (updates : list (string * val))
  : list (string * val) :=
  fold_left (fun acc kv => flatten_value (fst kv) (snd kv) acc) updates [].

End utils.

(** [s.split(sep)] for a one-character separator: never the empty list. *)
Fixpoint split (sep : ascii) (s : string) : list string :=
  match s with
  | EmptyString => [EmptyString]
  | String c s' =>
      if Ascii.eqb c sep then EmptyString :: split sep s'
      else
        match split sep s' with
        | p :: ps => String c p :: ps
        | [] => [String c EmptyString]
        end
  end.

(** The body shared by the three [_apply_update] methods:
    [for part in parts[:-1]: self = getattr(self, part)] and then
    [setattr(self, parts[-1], value)]. *)
Fixpoint apply_parts (self : val) (parts : list string) (value : val)
  : M unit :=
  match parts with
  | [] => ret tt
  | [last] => setattr self last value
  | part :: rest => self' <- getattr self part ;; apply_parts self' rest value
  end.

Definition _apply_update (self : val) (path : string) (value : val) : M unit :=
  apply_parts self (split "."%char path) value.

(** [if results_count: if <out of bounds>: raise ValueError(...)];
    comparing anything but a number with an integer is a [TypeError]. *)
Definition check_results_count (out_of_bounds : Z -> bool)
  (results_count : val) : M unit :=
  if truthy results_count then
    match number_of results_count with
    | Some n =>
        if out_of_bounds n then raise (ValueError ResultsCountBounds)
        else ret tt
    | None => raise (TypeError results_count)
    end
  else ret tt.

(** [m_f_ = []] and, [if metadata_filters:], one [mf._to_proto()] per
    filter. *)
Definition filters_to_proto (metadata_filters : val) : result (list val) :=
  if truthy metadata_filters then
    bind_result (iter metadata_filters) (map_result MetadataFilter._to_proto)
  else Ok [].

(** [c_data = []] and, [if custom_metadata:], one [cm._to_proto()] per
    entry. *)
Definition metadata_to_proto (custom_metadata : val) : result (list val) :=
  if truthy custom_metadata then
    bind_result (iter custom_metadata) (map_result CustomMetadata._to_proto)
  else Ok [].

(** A value used as a dictionary: subscripting by a string or unpacking as
    keyword arguments fails on anything else. *)
Definition as_dict (v : val) : result (list (string * val)) :=
  match v with
  | VDict items => Ok items
  | _ => Raise (TypeError v)
  end.

(** ** [Chunk] *)

Module Chunk.
Section Chunk.
(** [datetime.datetime.strptime(s, "%Y-%m-%dT%H:%M:%S.%fZ")] of the
    standard library. *)
Variable strptime : val -> result val.

(** [flatten_update_paths] of [google.generativeai.utils]. *)
Variable flatten_update_paths : list (string * val) -> list (string * val).

(** The [state] argument as a key of [_STATE]: a list or a dictionary cannot
    be hashed, and no other value is a key. *)
Definition state_options (state : val) : result StateOptions :=
  match state, number_of state with
  | VStr s, _ => Ok (OfStr s)
  | VState s, _ => Ok (OfEnum s)
  | _, Some z => Ok (OfInt z)
  | (VList _ | VDict _), None => Raise (TypeError state)
  | _, None => Raise (KeyError state)
  end.

(** [None] stays, a [datetime] stays, anything else is parsed. *)
Definition decode_time (t : val) : result val :=
  match t with
  | VNone => Ok VNone
  | VDatetime _ => Ok t
  | _ => strptime t
  end.

(** [Chunk(name, data, custom_metadata, state, create_time, update_time)]:
    the instance is allocated, then [__init__] fills it. *)
Definition __init__ (name data custom_metadata state create_time
  update_time : val) : M val :=
  self <- new "Chunk" [] ;;
  setattr self "name" name ;;;
  match data with
  | VStr _ =>
      d <- new "ChunkData" [("string_value", data)] ;;
      setattr self "data" d
  | VDict items =>
      s <- lift (dict_item items "string_value") ;;
      d <- new "ChunkData" [("string_value", s)] ;;
      setattr self "data" d
  | _ => ret tt
  end ;;;
  match custom_metadata with
  | VNone => setattr self "custom_metadata" (VList [])
  | _ =>
      cms <- lift (iter custom_metadata) ;;
      cms' <- lift (map_result make_custom_metadata cms) ;;
      setattr self "custom_metadata" (VList cms')
  end ;;;
  so <- lift (state_options state) ;;
  s <- lift (to_state so) ;;
  setattr self "state" (VState s) ;;;
  ct <- lift (decode_time create_time) ;;
  setattr self "create_time" ct ;;;
  ut <- lift (decode_time update_time) ;;
  setattr self "update_time" ut ;;;
  ret self.

(** The call of [Chunk] with the items of a dictionary as keyword
    arguments: four required parameters, two optional ones, and no
    other keyword. *)
Definition parameters : list string :=
  ["name"; "data"; "custom_metadata"; "state"; "create_time"; "update_time"].

Definition from_kwargs (kwargs : val) : M val :=
  kw <- lift (as_dict kwargs) ;;
  match find (fun kv => negb (existsb (String.eqb (fst kv)) parameters)) kw with
  | Some _ => raise (TypeError kwargs)
  | None =>
      match PyDict.get String.eqb kw "name", PyDict.get String.eqb kw "data",
            PyDict.get String.eqb kw "custom_metadata",
            PyDict.get String.eqb kw "state" with
      | Some name, Some data, Some custom_metadata, Some state =>
          __init__ name data custom_metadata state
            (dict_get kw "create_time") (dict_get kw "update_time")
      | _, _, _, _ => raise (TypeError kwargs)
      end
  end.

Definition _apply_update := _apply_update.

(** [dataclasses.asdict] of the [ChunkData] held in [self.data]. *)
Definition asdict (data : val) : M val :=
  fun st =>
    match data with
    | VRef l =>
        match heap st !! l with
        | Some ob =>
            if String.eqb (cls ob) "ChunkData" then
              match attrs ob !! "string_value" with
              | Some s => (Ok (VDict [("string_value", s)]), st)
              | None => (Raise (AttributeError "string_value"), st)
              end
            else (Raise (TypeError data), st)
        | None => (Raise (TypeError data), st)
        end
    | _ => (Raise (TypeError data), st)
    end.

Definition to_dict (self : val) : M val :=
  name <- getattr self "name" ;;
  data <- getattr self "data" ;;
  data <- asdict data ;;
  custom_metadata <- getattr self "custom_metadata" ;;
  cms <- lift (iter custom_metadata) ;;
  cms' <- lift (map_result CustomMetadata._to_dict cms) ;;
  state <- getattr self "state" ;;
  ret (VDict [("name", name); ("data", data);
              ("custom_metadata", VList cms'); ("state", state)]).

Definition update (self : val) (updates : list (string * val))
  (client : client) : M val :=
  custom_metadata <- getattr self "custom_metadata" ;;
  c_data <- lift (metadata_to_proto custom_metadata) ;;
  setattr self "custom_metadata" (VList c_data) ;;;
  let updates := flatten_update_paths updates in
  for_each (PyDict.keys updates)
    (fun item =>
       if String.eqb item "data.string_value" then ret tt
       else raise (ValueError (OnlyChunkData item))) ;;;
  let field_mask := PyDict.keys updates in
  for_each updates (fun pv => _apply_update self (fst pv) (snd pv)) ;;;
  chunk <- to_dict self ;;
  remote client (update_chunk chunk field_mask) ;;;
  ret self.

(** [update_async] runs the same statements and awaits the remote call. *)
Definition update_async := update.

End Chunk.
End Chunk.

(** ** Query responses *)

Section Responses.
Variable strptime : val -> result val.

(** [RelevantChunk(chunk_relevance_score=c["chunk_relevance_score"],
    chunk=Chunk(...c["chunk"]))] *)
Definition relevant_chunk (c : val) : M val :=
  c <- lift (as_dict c) ;;
  score <- lift (dict_item c "chunk_relevance_score") ;;
  kwargs <- lift (dict_item c "chunk") ;;
  chunk <- Chunk.from_kwargs strptime kwargs ;;
  new "RelevantChunk" [("chunk_relevance_score", score); ("chunk", chunk)].

(** The tail shared by the query methods: the response is turned into a
    dictionary and one [RelevantChunk] is built per listed chunk. *)
Definition relevant_chunks (response : val) : M val :=
  response <- lift (as_dict (to_dict response)) ;;
  listed <- lift (dict_item response "relevant_chunks") ;;
  cs <- lift (iter listed) ;;
  rcs <- map_M relevant_chunk cs ;;
  ret (VList rcs).
End Responses.

(** ** [Corpus] *)

Module Corpus.

Definition _apply_update := _apply_update.

Definition to_dict (self : val) : M val :=
  name <- getattr self "name" ;;
  display_name <- getattr self "display_name" ;;
  ret (VDict [("name", name); ("display_name", display_name)]).

Section Update.
(** [flatten_update_paths] of [google.generativeai.utils]. *)
Variable flatten_update_paths : list (string * val) -> list (string * val).

Definition update (self : val) (updates : list (string * val))
  (client : client) : M val :=
  let updates := flatten_update_paths updates in
  for_each (PyDict.keys updates)
    (fun item =>
       if String.eqb item "display_name" then ret tt
       else raise (ValueError (OnlyDisplayName "Corpus"))) ;;;
  let field_mask := PyDict.keys updates in
  for_each updates (fun pv => _apply_update self (fst pv) (snd pv)) ;;;
  corpus <- to_dict self ;;
  remote client (update_corpus corpus field_mask) ;;;
  ret self.

(** [update_async] runs the same statements and awaits the remote call. *)
Definition update_async := update.
End Update.

Section Query.
Variable strptime : val -> result val.

Definition query (self query metadata_filters results_count : val)
  (client : client) : M val :=
  check_results_count (fun n => 100 <? n)%Z results_count ;;;
  m_f_ <- lift (filters_to_proto metadata_filters) ;;
  name <- getattr self "name" ;;
  response <- remote client (query_corpus name query m_f_ results_count) ;;
  relevant_chunks strptime response.

(** [query_async] runs the same statements and awaits the remote call. *)
Definition query_async := query.
End Query.

End Corpus.

(** ** [Document] *)

Module Document.

Definition _make_chunk (chunk : val) : result val :=
  if is_proto "Chunk" chunk then Ok chunk
  else
    match chunk with
    | VStr _ => Ok (VProto "Chunk" [("data", VDict [("string_value", chunk)])])
    | VTuple xs =>
        bind_result
          (match xs with
           | [name; data] => Ok (name, data, VNone)
           | [name; data; custom_metadata] => Ok (name, data, custom_metadata)
           | _ => Raise (ValueError (TupleLength (List.length xs) chunk))
           end)
          (fun '(name, data, custom_metadata) =>
             Ok (VProto "Chunk"
                   [("name", name);
                    ("data", VDict [("string_value", data)]);
                    ("custom_metadata", custom_metadata)]))
    | VDict items =>
        bind_result (dict_item items "data") (fun data =>
        match data with
        | VStr _ =>
            Ok (VProto "Chunk"
                  (PyDict.set String.eqb items "data"
                     (VDict [("string_value", data)])))
        | _ => Ok (VProto "Chunk" items)
        end)
    | _ => Raise (TypeError chunk)
    end.

Definition _apply_update := _apply_update.

Definition to_dict (self : val) : M val :=
  name <- getattr self "name" ;;
  display_name <- getattr self "display_name" ;;
  custom_metadata <- getattr self "custom_metadata" ;;
  ret (VDict [("name", name); ("display_name", display_name);
              ("custom_metadata", custom_metadata)]).

Section Update.
(** [flatten_update_paths] of [google.generativeai.utils]. *)
Variable flatten_update_paths : list (string * val) -> list (string * val).

Definition update (self : val) (updates : list (string * val))
  (client : client) : M val :=
  let updates := flatten_update_paths updates in
  for_each (PyDict.keys updates)
    (fun item =>
       if String.eqb item "display_name" then ret tt
       else raise (ValueError (OnlyDisplayName "Document"))) ;;;
  let field_mask := PyDict.keys updates in
  for_each updates (fun pv => _apply_update self (fst pv) (snd pv)) ;;;
  document <- to_dict self ;;
  remote client (update_document document field_mask) ;;;
  ret self.

(** [update_async] runs the same statements and awaits the remote call. *)
Definition update_async := update.
End Update.

Section Query.
Variable strptime : val -> result val.

Definition query (self query metadata_filters results_count : val)
  (client : client) : M val :=
  check_results_count (fun n => (n <? 0) || (100 <=? n))%Z results_count ;;;
  m_f_ <- lift (filters_to_proto metadata_filters) ;;
  name <- getattr self "name" ;;
  response <- remote client (query_document name query m_f_ results_count) ;;
  relevant_chunks strptime response.

(** [query_async] runs the same statements and awaits the remote call. *)
Definition query_async := query.
End Query.

End Document.

(** ** Instances as the dataclass constructors build them *)

Definition Corpus_obj (name display_name create_time update_time : val) : obj :=
  Obj "Corpus"
    (list_to_map [("name", name); ("display_name", display_name);
                  ("create_time", create_time); ("update_time", update_time)]).

Definition Document_obj (name display_name custom_metadata create_time
  update_time : val) : obj :=
  Obj "Document"
    (list_to_map [("name", name); ("display_name", display_name);
                  ("custom_metadata", custom_metadata);
                  ("create_time", create_time); ("update_time", update_time)]).

Definition ChunkData_obj (string_value : val) : obj :=
  Obj "ChunkData" (list_to_map [("string_value", string_value)]).

(** ** Computations that send nothing *)

Definition keeps_calls {A : Type} (m : M A) : Prop :=
  forall st, calls (snd (m st)) = calls st.

(** ** Invariants of a computation *)

(** From a store in [P], a run of [m] that returns ends in [Q]. *)
Definition hoare {A : Type} (P : store -> Prop) (m : M A)
  (Q : A -> store -> Prop) : Prop :=
  forall st,
    P st ->
    match m st with
    | (Ok a, st') => Q a st'
    | (Raise _, _) => True
    end.

(** The instance at [l] has the attribute [name] and no attribute [data]. *)
Definition data_unset (l : loc) (name : val) (st : store) : Prop :=
  exists ob,
    heap st !! l = Some ob /\
    attrs ob !! "name" = Some name /\ attrs ob !! "data" = None.

(** ** Sample stores *)

(** A client whose service accepts every request. *)
Definition accepting : client := fun _ => Ok (VProto "Empty" []).

(** A client whose service answers a query with no chunk. *)
Definition silent : client :=
  fun _ => Ok (VProto "QueryResponse" [("relevant_chunks", VList [])]).

(** No time string parses. *)
Definition no_strptime : val -> result val :=
  fun t => Raise (ValueError (TimeFormat t)).

Definition empty_store : store := Store ∅ 1%positive [].

(** A store with one corpus, at reference 1. *)
Definition corpus_store : store :=
  Store {[ 1%positive :=
             Corpus_obj (VStr "corpora/c") (VStr "old title") VNone VNone ]}
    2%positive [].

(** A store with one [ChunkData], at reference 1. *)
Definition data_store : store :=
  Store {[ 1%positive := ChunkData_obj (VStr "some text") ]} 2%positive [].

(** A store with one document, at reference 1. *)
Definition document_store : store :=
  Store {[ 1%positive :=
             Document_obj (VStr "corpora/c/documents/d") (VStr "old title")
               (VList []) VNone VNone ]}
    2%positive [].

(** The store after [Chunk(name, data, custom_metadata, state)] ran on the
    empty store: the chunk is at reference 1. *)
Definition chunk_store (custom_metadata : val) : store :=
  snd (Chunk.__init__ no_strptime (VStr "corpora/c/documents/d/chunks/k")
         (VStr "some text") custom_metadata (VStr "active") VNone VNone
         empty_store).

(** The same with one string-valued metadata entry. *)
Definition metadata_chunk_store : store :=
  chunk_store (VList [VCustomMetadata (VStr "k") (VStr "v")]).

(** The instance that a store holds at a reference. *)
Definition instance_at (st : store) (l : loc) : obj :=
  match heap st !! l with
  | Some ob => ob
  | None => Obj "" ∅
  end.

(** ** The calls that create, fetch and delete *)

From Stdlib Require DecimalString.

(** A request of one of the other methods of the client stub, kept by the
    name of the method and the message sent. *)
Record rpc : Type := Rpc { method : string; request : val }.

(** The service, as the client stub shows it for these methods. *)
Definition service : Type := rpc -> result val.

(** What these methods raise: the exceptions above, the [ValueError] made
    from [NAME_ERROR_MSG] with the length and the name, and the
    [ValueError] that ends [batch_delete_chunks]. *)
Inductive error : Type :=
| Raised (e : exn)
| NameError (length : nat) (name : string)
| DeleteChunksError.

Inductive outcome (A : Type) : Type :=
| Returned (a : A)
| Failed (e : error).
Arguments Returned {A} a.
Arguments Failed {A} e.

(** The store of instances with the requests of these methods, oldest
    first. *)
Record world : Type := World { objects : store; sent : list rpc }.

Definition N (A : Type) : Type := world -> outcome A * world.

Definition unit_N {A : Type} (a : A) : N A := fun w => (Returned a, w).
Definition fail {A : Type} (e : error) : N A := fun w => (Failed e, w).
Definition bind_N {A B : Type} (m : N A) (k : A -> N B) : N B :=
  fun w =>
    match m w with
    | (Returned a, w') => k a w'
    | (Failed e, w') => (Failed e, w')
    end.

(** A computation on the store, run inside the world. *)
Definition run {A : Type} (m : M A) : N A :=
  fun w =>
    match m (objects w) with
    | (Ok a, st) => (Returned a, World st (sent w))
    | (Raise e, st) => (Failed (Raised e), World st (sent w))
    end.

Definition send (s : service) (r : rpc) : N val :=
  fun w =>
    (match s r with
     | Ok v => Returned v
     | Raise e => Failed (Raised e)
     end,
     World (objects w) (sent w ++ [r])).

Notation "x <~ m ;; k" := (bind_N m (fun x => k))
  (at level 90, m at next level, right associativity) : py_scope.
Notation "m ~;; k" := (bind_N m (fun _ => k))
  (at level 90, right associativity) : py_scope.

(** ["/" in name] *)
Fixpoint contains (c : ascii) (s : string) : bool :=
  match s with
  | EmptyString => false
  | String c' s' => Ascii.eqb c' c || contains c s'
  end.

(** [str(i)] for an index. *)
Definition decimal (i : nat) : string :=
  DecimalString.NilEmpty.string_of_uint (Nat.to_uint i).

(** [bool(x)]: [True] and [False] are the integers 1 and 0. *)
Definition bool_ (x : val) : val := VNum (if truthy x then 1 else 0).

(** [isinstance(x, Iterable)] *)
Definition is_iterable (x : val) : bool :=
  match iter x with
  | Ok _ => true
  | Raise _ => false
  end.

(** [chunk.name] of a wire chunk: a string field, empty when it was not
    given or given as [None]. *)
Definition chunk_name (fields : list (string * val)) : val :=
  match PyDict.get String.eqb fields "name" with
  | None | Some VNone => VStr ""
  | Some v => v
  end.

(** The fields that the bodies of the four classes declare.  None has a
    default, so the classes themselves hold no attribute of these names:
    reading or setting one goes to the instance.  The other names of a
    class (its methods, the property [permissions] of [Corpus]) are not
    attributes of the instances in the store. *)
Definition dataclass_fields (c : string) : list string :=
  if String.eqb c "ChunkData" then ["string_value"]
  else if String.eqb c "Corpus" then
    ["name"; "display_name"; "create_time"; "update_time"]
  else if String.eqb c "Document" then
    ["name"; "display_name"; "custom_metadata"; "create_time"; "update_time"]
  else if String.eqb c "Chunk" then
    ["name"; "data"; "custom_metadata"; "state"; "create_time"; "update_time"]
  else [].

(** The parameters of the dataclass [Document]. *)
Definition Document_parameters : list string :=
  ["name"; "display_name"; "custom_metadata"; "create_time"; "update_time"].

(** The call of [Document] with the items of a dictionary as keyword
    arguments: the five fields, all required, and no other keyword. *)
Definition Document_from_kwargs (kwargs : val) : M val :=
  kw <- lift (as_dict kwargs) ;;
  match find (fun kv => negb (existsb (String.eqb (fst kv)) Document_parameters))
          kw with
  | Some _ => raise (TypeError kwargs)
  | None =>
      match map_result
              (fun p =>
                 match PyDict.get String.eqb kw p with
                 | Some v => Ok (p, v)
                 | None => Raise (TypeError kwargs)
                 end) Document_parameters with
      | Ok fields => new "Document" fields
      | Raise e => raise e
      end
  end.

Section Calls.
(** [str(v)] of the interpreter, for a value that is not a string. *)
Variable str : val -> string.

(** [idecode_time] of [google.generativeai.types.model_types]: the
    dictionary with the time under the key decoded. *)
Variable idecode_time :
  list (string * val) -> string -> result (list (string * val)).

(** [datetime.datetime.strptime] with the format of [Chunk.__init__]. *)
Variable strptime : val -> result val.

(** The text of a value inside an f-string. *)
Definition text (v : val) : string :=
  match v with
  | VStr s => s
  | _ => str v
  end.

Definition decode_document (document : val) : M val :=
  document <- lift (as_dict (to_dict document)) ;;
  document <- lift (idecode_time document "create_time") ;;
  document <- lift (idecode_time document "update_time") ;;
  Document_from_kwargs (VDict document).

Definition decode_chunk (chunk : val) : M val :=
  chunk <- lift (as_dict (to_dict chunk)) ;;
  chunk <- lift (idecode_time chunk "create_time") ;;
  chunk <- lift (idecode_time chunk "update_time") ;;
  Chunk.from_kwargs strptime (VDict chunk).

(** The branch on [name] shared by [create_document] and [create_chunk]:
    [None], a name that [valid_name] accepts and is put under the parent,
    or the name error. [part] is [documents] or [chunks]. *)
Definition created_name (self name : val) (part : string) : N (option string) :=
  match name with
  | VNone => unit_N None
  | VStr n =>
      if valid_name n then
        parent <~ run (getattr self "name") ;;
        unit_N (Some (text parent ++ "/" ++ part ++ "/" ++ n)%string)
      else fail (NameError (String.length n) n)
  | _ => fail (Raised (TypeError name))
  end.

(** [if "/" not in name: name = f"{self.name}/<part>/{name}"] *)
Definition qualified_name (self : val) (name : string) (part : string)
  : N string :=
  if contains "/" name then unit_N name
  else
    parent <~ run (getattr self "name") ;;
    unit_N (text parent ++ "/" ++ part ++ "/" ++ name)%string.

Definition Corpus_create_document (self name display_name custom_metadata : val)
  (service : service) : N val :=
  c_data <~ run (lift (metadata_to_proto custom_metadata)) ;;
  full <~ created_name self name "documents" ;;
  let document :=
    match full with
    | None =>
        VProto "Document"
          [("display_name", display_name); ("custom_metadata", VList c_data)]
    | Some full =>
        VProto "Document"
          [("name", VStr full); ("display_name", display_name);
           ("custom_metadata", VList c_data)]
    end in
  parent <~ run (getattr self "name") ;;
  response <~ send service
    (Rpc "create_document"
       (VProto "CreateDocumentRequest"
          [("parent", parent); ("document", document)])) ;;
  run (decode_document response).

Definition Corpus_get_document (self : val) (name : string)
  (service : service) : N val :=
  name <~ qualified_name self name "documents" ;;
  response <~ send service
    (Rpc "get_document" (VProto "GetDocumentRequest" [("name", VStr name)])) ;;
  run (decode_document response).

Definition Corpus_delete_document (self : val) (name : string) (force : val)
  (service : service) : N val :=
  name <~ qualified_name self name "documents" ;;
  send service
    (Rpc "delete_document"
       (VProto "DeleteDocumentRequest"
          [("name", VStr name); ("force", bool_ force)])) ~;;
  unit_N VNone.

Definition Document_create_chunk (self data name custom_metadata : val)
  (service : service) : N val :=
  c_data <~ run (lift (metadata_to_proto custom_metadata)) ;;
  full <~ created_name self name "chunks" ;;
  let chunk_name :=
    match full with
    | None => VNone
    | Some full => VStr full
    end in
  string_value <~
    match data with
    | VStr _ => unit_N data
    | _ => run (getattr data "string_value")
    end ;;
  let chunk :=
    VProto "Chunk"
      [("name", chunk_name); ("data", VDict [("string_value", string_value)]);
       ("custom_metadata", VList c_data)] in
  parent <~ run (getattr self "name") ;;
  response <~ send service
    (Rpc "create_chunk"
       (VProto "CreateChunkRequest" [("parent", parent); ("chunk", chunk)])) ;;
  run (decode_chunk response).

Definition Document_get_chunk (self : val) (name : string)
  (service : service) : N val :=
  name <~ qualified_name self name "chunks" ;;
  response <~ send service
    (Rpc "get_chunk" (VProto "GetChunkRequest" [("name", VStr name)])) ;;
  run (decode_chunk response).

Definition Document_delete_chunk (self : val) (name : string)
  (service : service) : N val :=
  name <~ qualified_name self name "chunks" ;;
  send service
    (Rpc "delete_chunk" (VProto "DeleteChunkRequest" [("name", VStr name)])) ~;;
  unit_N VNone.

(** The items of a mapping as the tuples the loop walks:
    [(key,) + value] for a tuple, [(key, value)] otherwise. *)
Definition flatten_item (kv : string * val) : val :=
  match snd kv with
  | VTuple xs => VTuple (VStr (fst kv) :: xs)
  | v => VTuple [VStr (fst kv); v]
  end.

(** The loop of [_make_batch_create_chunk_request] from index [i] on. *)
Fixpoint create_chunk_requests (self : val) (i : nat) (chunks : list val)
  : M (list val) :=
  match chunks with
  | [] => ret []
  | chunk :: rest =>
      chunk <- lift (Document._make_chunk chunk) ;;
      match chunk with
      | VProto message fields =>
          let name :=
            if String.eqb (text (chunk_name fields)) "" then decimal i
            else text (chunk_name fields) in
          parent <- getattr self "name" ;;
          let fields :=
            PyDict.set String.eqb fields "name"
              (VStr (text parent ++ "/chunks/" ++ name)%string) in
          parent <- getattr self "name" ;;
          let request :=
            VProto "CreateChunkRequest"
              [("parent", parent); ("chunk", VProto message fields)] in
          requests <- create_chunk_requests self (S i) rest ;;
          ret (request :: requests)
      | _ => raise (AttributeError "name")
      end
  end.

Definition Document__make_batch_create_chunk_request (self chunks : val)
  : M val :=
  if is_proto "BatchCreateChunksRequest" chunks then ret chunks
  else
    chunks <- lift (match chunks with
                    | VDict items => Ok (map flatten_item items)
                    | _ => iter chunks
                    end) ;;
    requests <- create_chunk_requests self 0 chunks ;;
    parent <- getattr self "name" ;;
    ret (VProto "BatchCreateChunksRequest"
           [("parent", parent); ("requests", VList requests)]).

Definition Document_batch_delete_chunks (self chunks : val)
  (service : service) : N val :=
  xs <~ run (lift (iter chunks)) ;;
  if forallb (is_proto "DeleteChunkRequest") xs then
    parent <~ run (getattr self "name") ;;
    send service
      (Rpc "batch_delete_chunks"
         (VProto "BatchDeleteChunksRequest"
            [("parent", parent); ("requests", chunks)])) ~;;
    unit_N VNone
  else if is_iterable chunks then
    let _request_list :=
      map (fun chunk_name => VProto "DeleteChunkRequest" [("name", chunk_name)])
        xs in
    parent <~ run (getattr self "name") ;;
    send service
      (Rpc "batch_delete_chunks"
         (VProto "BatchDeleteChunksRequest"
            [("parent", parent); ("requests", VList _request_list)])) ~;;
    unit_N VNone
  else fail DeleteChunksError.

End Calls.

(** A service that accepts every request and answers with an empty
    message. *)
Definition obliging : service := fun _ => Ok (VProto "Empty" []).

(** The sample corpus and the sample document with nothing sent yet. *)
Definition corpus_world : world := World corpus_store [].
Definition document_world : world := World document_store [].

(** A service that answers a request carrying a chunk with that chunk, in
    the active state, and every other request with an empty message. *)
Definition storing : service :=
  fun r =>
    match request r with
    | VProto _ fields =>
        match PyDict.get String.eqb fields "chunk" with
        | Some (VProto _ chunk) =>
            Ok (VProto "Chunk" (chunk ++ [("state", VNum 2)]))
        | _ => Ok (VProto "Empty" [])
        end
    | _ => Ok (VProto "Empty" [])
    end.

(** The sample document at reference 1 with a [ChunkData] at reference 2,
    and nothing sent yet. *)
Definition draft_world : world :=
  World
    (Store
       (<[ 2%positive := ChunkData_obj (VStr "some text") ]>
          {[ 1%positive :=
               Document_obj (VStr "corpora/c/documents/d") (VStr "old title")
                 (VList []) VNone VNone ]})
       3%positive [])
    [].

(** * Properties *)

(** ** Strings *)

Lemma string_forallb_app (p : ascii -> bool) (a b : string) :
  string_forallb p (a ++ b)%string = string_forallb p a && string_forallb p b.
Proof.
  induction a as [|c a IH]; simpl; [reflexivity|].
  rewrite IH. apply andb_assoc.
Qed.

Lemma string_length_app (a b : string) :
  String.length (a ++ b)%string = String.length a + String.length b.
Proof. induction a as [|c a IH]; simpl; [reflexivity | now rewrite IH]. Qed.

Lemma string_get_forallb (p : ascii -> bool) (s : string) :
  string_forallb p s = true ->
  forall i c, String.get i s = Some c -> p c = true.
Proof.
  induction s as [|c0 s IH]; simpl; intros Hall i c Hget; [discriminate|].
  apply andb_true_iff in Hall as [Hc0 Hs].
  destruct i as [|i]; [congruence|]. eapply IH; eauto.
Qed.

Lemma string_get_app (a b : string) (i : nat) :
  String.get i (a ++ b)%string =
  if (i <? String.length a)%nat then String.get i a
  else String.get (i - String.length a) b.
Proof.
  revert i. induction a as [|c a IH]; intros i; simpl.
  - now rewrite Nat.sub_0_r.
  - destruct i as [|i]; [reflexivity|]. apply IH.
Qed.

(** A string that is not empty is a front and its last character. *)
Lemma string_last (s : string) :
  1 <= String.length s ->
  exists mid d,
    s = (mid ++ String d EmptyString)%string /\
    String.get (String.length s - 1) s = Some d.
Proof.
  induction s as [|e s IH]; [simpl; lia|]. intros _.
  destruct s as [|e' s'].
  - exists EmptyString, e. auto.
  - destruct IH as (mid & d & Heq & Hlast); [simpl; lia|].
    exists (String e mid), d. split.
    + rewrite Heq. reflexivity.
    + replace (String.length (String e (String e' s')) - 1)
        with (S (String.length (String e' s') - 1)) by (simpl; lia).
      exact Hlast.
Qed.

(** A string of two characters or more is its first character, a middle,
    and its last character. *)
Lemma string_ends (s : string) :
  2 <= String.length s ->
  exists c mid d,
    s = String c (mid ++ String d EmptyString)%string /\
    String.get (String.length s - 1) s = Some d.
Proof.
  destruct s as [|c s]; [simpl; lia|]. intros Hlen.
  destruct (string_last s) as (mid & d & Heq & Hlast); [simpl in Hlen; lia|].
  exists c, mid, d. split; [now rewrite Heq|].
  replace (String.length (String c s) - 1)
    with (S (String.length s - 1)) by (simpl in *; lia).
  exact Hlast.
Qed.

(** ** The matcher on [_VALID_NAME] *)

(** What remains after a bounded run of one character class: any split of
    the input whose first part is within the bound and inside the class. *)
Lemma iterate_class (p : ascii -> bool) (n : nat) (s t : string) :
  In t (Re.iterate (Re.run (Re.Class p)) 0 n s) <->
  exists pre, s = (pre ++ t)%string /\ String.length pre <= n /\
              string_forallb p pre = true.
Proof.
  revert s. induction n as [|n IH]; intros s; simpl.
  - split.
    + intros [<-|[]]. exists EmptyString. auto.
    + intros (pre & -> & Hlen & _). destruct pre; simpl in *; [auto|lia].
  - rewrite in_app_iff, in_flat_map. split.
    + intros [(s' & Hs' & Ht)|[<-|[]]].
      * destruct s as [|c s]; [destruct Hs'|].
        destruct (p c) eqn:Hc; [|destruct Hs'].
        destruct Hs' as [<-|[]]. apply IH in Ht as (pre & -> & Hlen & Hall).
        exists (String c pre). simpl. rewrite Hc, Hall. repeat split; lia.
      * exists EmptyString. simpl. repeat split; lia.
    + intros (pre & -> & Hlen & Hall). destruct pre as [|c pre]; simpl in *.
      * right. now left.
      * left. apply andb_true_iff in Hall as [Hc Hall]. rewrite Hc.
        exists (pre ++ t)%string. split; [now left|].
        apply IH. exists pre. repeat split; [lia|assumption].
Qed.

Lemma re_match_true (r : Re.regex) (s : string) :
  Re.re_match r s = true <-> exists t, In t (Re.run r s).
Proof.
  unfold Re.re_match. destruct (Re.run r s) as [|t ts]; split.
  - discriminate.
  - intros [t []].
  - intros _. exists t. now left.
  - reflexivity.
Qed.

(** The strings [valid_name] accepts, read off the pattern: an alphanumeric,
    at most 38 slug characters, an alphanumeric, then the end of the string
    or one final newline; fewer than 40 characters in all. *)
Lemma valid_name_shape (s : string) :
  valid_name s = true <->
  exists c pre d t,
    s = String c (pre ++ String d t)%string /\
    alnum c = true /\ String.length pre <= 38 /\
    string_forallb slug pre = true /\ alnum d = true /\
    Re.at_end t = true /\ String.length s < 40.
Proof.
  unfold valid_name. rewrite andb_true_iff, re_match_true, Nat.ltb_lt.
  unfold _VALID_NAME. split.
  - intros [[t Ht] Hlen]. cbn [Re.run] in Ht.
    destruct s as [|c s]; [destruct Ht|].
    destruct (alnum c) eqn:Hc; [|destruct Ht].
    cbn [flat_map] in Ht. rewrite app_nil_r in Ht.
    apply in_flat_map in Ht as (t1 & Ht1 & Ht).
    apply in_flat_map in Ht1 as (t0 & Ht0 & Ht1).
    apply iterate_class in Ht0 as (pre & -> & Hpre & Hall).
    destruct t0 as [|d t0]; [destruct Ht1|].
    destruct (alnum d) eqn:Hd; [|destruct Ht1].
    destruct Ht1 as [<-|[]].
    destruct (Re.at_end t0) eqn:Hend; [|destruct Ht].
    exists c, pre, d, t0. repeat split; assumption.
  - intros (c & pre & d & t & -> & Hc & Hpre & Hall & Hd & Hend & Hlen).
    split; [|assumption]. exists t. cbn [Re.run]. rewrite Hc.
    cbn [flat_map]. rewrite app_nil_r.
    apply in_flat_map. exists t. split.
    + apply in_flat_map. exists (String d t). split.
      * apply iterate_class. exists pre. auto.
      * rewrite Hd. now left.
    + rewrite Hend. now left.
Qed.

Lemma alnum_slug (c : ascii) : alnum c = true -> slug c = true.
Proof. unfold slug. intros ->. reflexivity. Qed.

Lemma at_end_cases (t : string) :
  Re.at_end t = true -> t = EmptyString \/ t = String newline EmptyString.
Proof.
  destruct t as [|c [|c' t]]; simpl; [auto| |discriminate].
  intros H. apply Ascii.eqb_eq in H. subst. auto.
Qed.

(** ** [valid_name] *)

(** C4, as the code has it.  A string of lowercase alphanumerics and hyphens
    of length 2 to 39 whose first and last characters are alphanumeric is
    accepted; a string of 40 characters or more is rejected; and so is a
    string with a character outside the slug alphabet anywhere but in a
    final newline. *)
Theorem valid_name_slug (s : string) :
  (forall c d,
      string_forallb slug s = true ->
      2 <= String.length s <= 39 ->
      String.get 0 s = Some c -> alnum c = true ->
      String.get (String.length s - 1) s = Some d -> alnum d = true ->
      valid_name s = true) /\
  (40 <= String.length s -> valid_name s = false) /\
  (forall i c,
      String.get i s = Some c -> slug c = false ->
      S i < String.length s \/ c <> newline ->
      valid_name s = false).
Proof.
  split; [|split].
  - intros c d Hall Hlen Hfirst Hc Hlast Hd.
    destruct (string_ends s) as (c' & mid & d' & Heq & Hlast'); [lia|].
    assert (d' = d) by congruence. subst d'.
    assert (c' = c) by (rewrite Heq in Hfirst; simpl in Hfirst; congruence).
    subst c'. apply valid_name_shape. exists c, mid, d, EmptyString.
    assert (Hlen' : String.length s = S (String.length mid + 1)).
    { rewrite Heq. simpl. now rewrite string_length_app. }
    rewrite Heq in Hall. simpl in Hall. rewrite string_forallb_app in Hall.
    apply andb_true_iff in Hall as [_ Hall].
    apply andb_true_iff in Hall as [Hmid _].
    repeat split; try assumption; lia.
  - intros Hlen. unfold valid_name.
    replace (String.length s <? 40)%nat with false
      by (symmetry; apply Nat.ltb_ge; lia).
    apply andb_false_r.
  - intros i c Hget Hc Hpos.
    destruct (valid_name s) eqn:Hv; [exfalso|reflexivity].
    apply valid_name_shape in Hv
      as (c0 & pre & d & t & -> & Hc0 & Hpre & Hall & Hd & Hend & Hlen).
    destruct i as [|j]; simpl in Hget.
    { injection Hget as ->. apply alnum_slug in Hc0. congruence. }
    rewrite string_get_app in Hget.
    destruct (j <? String.length pre)%nat eqn:Hj.
    { pose proof (string_get_forallb slug pre Hall j c Hget). congruence. }
    apply Nat.ltb_ge in Hj.
    destruct (j - String.length pre) as [|k] eqn:Hk; simpl in Hget.
    { injection Hget as ->. apply alnum_slug in Hd. congruence. }
    apply at_end_cases in Hend as [->| ->]; [destruct k; discriminate|].
    destruct k as [|k]; simpl in Hget; [|destruct k; discriminate].
    injection Hget as <-.
    simpl in Hpos. rewrite string_length_app in Hpos. simpl in Hpos.
    destruct Hpos as [Hpos|Hpos]; [lia|now apply Hpos].
Qed.

(** C4 at concrete names: a well-formed name, a name of 40 characters, and a
    name with an underscore. *)
Lemma valid_name_slug_witness :
  valid_name "corpus-1" = true /\
  valid_name "a12345678901234567890123456789012345678b" = false /\
  valid_name "my_corpus" = false.
Proof.
  split; [|split].
  - apply (proj1 (valid_name_slug "corpus-1") "c"%char "1"%char);
      first [reflexivity | simpl; lia].
  - apply (proj1 (proj2 (valid_name_slug
             "a12345678901234567890123456789012345678b"))).
    simpl. lia.
  - apply (proj2 (proj2 (valid_name_slug "my_corpus")) 2 "_"%char);
      [reflexivity | reflexivity | left; simpl; lia].
Defined.

(** C4 as stated fails: the one-character name [a] and the name [-a] belong
    to the slug grammar of the specification and are rejected, and the name
    [ab] followed by a newline holds a character outside the alphabet and is
    accepted. *)
Lemma valid_name_counterexample :
  slug_grammar "a" = true /\ valid_name "a" = false /\
  slug_grammar "-a" = true /\ valid_name "-a" = false /\
  slug newline = false /\
  valid_name (String "a" (String "b" (String newline EmptyString))) = true.
Proof. repeat split; reflexivity. Qed.

(** ** [to_operator] *)

(** A string is looked up by its lower-case form. *)
Lemma to_operator_lower (s : string) :
  to_operator (OfStr s) = to_operator (OfStr (lower s)).
Proof.
  assert (Hidem : forall t, lower (lower t) = lower t).
  { induction t as [|c t IH]; simpl; [reflexivity|]. rewrite IH. f_equal.
    unfold lower_char. destruct (is_upper c) eqn:Hc; [|now rewrite Hc].
    unfold is_upper, code in *. apply andb_true_iff in Hc as [H1 H2].
    apply Nat.leb_le in H1, H2.
    rewrite nat_ascii_embedding by lia.
    replace (65 <=? nat_of_ascii c + 32)%nat with true
      by (symmetry; apply Nat.leb_le; lia).
    replace (nat_of_ascii c + 32 <=? 90)%nat with false
      by (symmetry; apply Nat.leb_gt; lia).
    reflexivity. }
  unfold to_operator. now rewrite Hidem.
Qed.

(** C6 on the code: the symbol [>=] is not a key of the table, so
    [to_operator] raises [KeyError] on it, in either case of its letters
    (it has none); the other operators of the interface are found under
    their symbols and names, whatever the case of the letters. *)
Theorem to_operator_symbols :
  to_operator (OfStr ">=") = Raise (KeyError (VStr ">=")) /\
  (forall s o,
      In (lower s, o)
        [("<", LESS); ("<=", LESS_EQUAL); ("==", EQUAL); ("!=", NOT_EQUAL);
         ("unspecified", OPERATOR_UNSPECIFIED); ("includes", INCLUDES);
         ("excludes", EXCLUDES)] ->
      to_operator (OfStr s) = Ok o).
Proof.
  split; [reflexivity|].
  intros s o Hin. rewrite to_operator_lower.
  simpl in Hin.
  repeat (destruct Hin as [Hin|Hin];
          [injection Hin as <- <-; reflexivity|]).
  destruct Hin.
Qed.

(** *** Dictionary displays with a repeated key *)

Section DictLemmas.
Context {K V : Type} (eqb : K -> K -> bool).
Hypothesis eqb_sym : forall a b, eqb a b = eqb b a.
Hypothesis eqb_trans : forall a b c, eqb a b = true -> eqb a c = eqb b c.

(** After [d[k] = v], a lookup finds [v] under every key equal to [k], and
    what [d] held under the others. *)
Lemma get_set (d : list (K * V)) (k q : K) (v : V) :
  PyDict.get eqb (PyDict.set eqb d k v) q =
  if eqb k q then Some v else PyDict.get eqb d q.
Proof.
  induction d as [|[k' v'] d IH]; simpl; [reflexivity|].
  destruct (eqb k' k) eqn:Hk; simpl.
  - rewrite (eqb_trans k' k q Hk). now destruct (eqb k q).
  - rewrite IH. destruct (eqb k' q) eqn:Hq; [|reflexivity].
    rewrite (eqb_trans k' q k Hq) in Hk. rewrite eqb_sym in Hk.
    now rewrite Hk.
Qed.

Lemma literal_app (items items' : list (K * V)) :
  PyDict.literal eqb (items ++ items') =
  fold_left (fun d kv => PyDict.set eqb d (fst kv) (snd kv)) items'
    (PyDict.literal eqb items).
Proof. unfold PyDict.literal. apply fold_left_app. Qed.
End DictLemmas.

Lemma key_eqb_sym {E : Type} (value : E -> Z) (a b : options E) :
  key_eqb value a b = key_eqb value b a.
Proof.
  destruct a, b; simpl; auto using Z.eqb_sym, String.eqb_sym.
Qed.

Lemma key_eqb_trans {E : Type} (value : E -> Z) (a b c : options E) :
  key_eqb value a b = true -> key_eqb value a c = key_eqb value b c.
Proof.
  destruct a, b; simpl; intros H; try discriminate;
    first [apply Z.eqb_eq in H | apply String.eqb_eq in H];
    destruct c; simpl; congruence.
Qed.

(** Whatever integers the wire library gives to the members of [Operator],
    the table holds [EXCLUDES] under the key 6: the only entries after
    [6: Operator.EXCLUDES] have string keys. *)
Lemma _OPERATOR_6_any_numbering (value : Operator -> Z) :
  PyDict.get (key_eqb value)
    (PyDict.literal (key_eqb value) _OPERATOR_items) (OfInt 6)
  = Some EXCLUDES.
Proof.
  change _OPERATOR_items
    with (firstn 33 _OPERATOR_items ++ skipn 33 _OPERATOR_items).
  rewrite literal_app. cbn [skipn _OPERATOR_items fold_left fst snd].
  rewrite !get_set by (apply key_eqb_sym || apply key_eqb_trans).
  reflexivity.
Qed.

(** C7, as the code has it: of the two entries written with key 6 the
    later one stays, so [to_operator(6)] is [EXCLUDES], and no integer that
    the table writes as a key leads to [INCLUDES]. *)
Theorem to_operator_duplicate_key :
  to_operator (OfInt 6) = Ok EXCLUDES /\
  (forall z o,
      In (OfInt z, o) _OPERATOR_items -> to_operator (OfInt z) <> Ok INCLUDES).
Proof.
  split; [reflexivity|].
  intros z o Hin. simpl in Hin.
  repeat (destruct Hin as [Hin|Hin];
          [first [discriminate Hin
                 | injection Hin as <- <-; vm_compute; discriminate]|]).
  destruct Hin.
Qed.

(** C7 as stated fails: [to_operator(6)] is [EXCLUDES], not [INCLUDES], and
    so an integer does lead to [EXCLUDES]. *)
Lemma to_operator_6_counterexample :
  to_operator (OfInt 6) = Ok EXCLUDES.
Proof. reflexivity. Qed.

(** ** [make_custom_metadata] *)

Lemma _from_dict_shape (items : list (string * val)) (cm : val) :
  CustomMetadata._from_dict items = Ok cm ->
  exists key value, cm = VCustomMetadata key value.
Proof.
  unfold CustomMetadata._from_dict.
  destruct (dict_item items "key") as [key|e]; simpl; [|discriminate].
  intros [= <-]. eauto.
Qed.

Lemma make_custom_metadata_shape (x cm : val) :
  make_custom_metadata x = Ok cm ->
  exists key value, cm = VCustomMetadata key value.
Proof.
  unfold make_custom_metadata.
  destruct x; try discriminate;
    try (intros H; now apply _from_dict_shape in H);
    try (intros [= <-]; eauto).
  destruct (is_proto "CustomMetadata" (VProto message fields)); simpl;
    [|discriminate].
  intros H. now apply _from_dict_shape in H.
Qed.

(** C3: normalising twice is normalising once, for every input (an input
    that is refused is refused with the same error); a [CustomMetadata] is
    returned as it is; and a dictionary with a [key] is accepted. *)
Theorem make_custom_metadata_idempotent :
  (forall x,
      bind_result (make_custom_metadata x) make_custom_metadata
      = make_custom_metadata x) /\
  (forall key value,
      make_custom_metadata (VCustomMetadata key value)
      = Ok (VCustomMetadata key value)) /\
  (forall items key,
      dict_item items "key" = Ok key ->
      exists value,
        make_custom_metadata (VDict items) = Ok (VCustomMetadata key value)).
Proof.
  split; [|split].
  - intros x. destruct (make_custom_metadata x) as [cm|e] eqn:Hx; simpl;
      [|reflexivity].
    apply make_custom_metadata_shape in Hx as (key & value & ->).
    reflexivity.
  - reflexivity.
  - intros items key Hkey. unfold make_custom_metadata. simpl.
    unfold CustomMetadata._from_dict. rewrite Hkey. simpl. eauto.
Qed.

(** C3 on a string-valued dictionary, a string-valued wire message and a
    list-valued dictionary. *)
Lemma make_custom_metadata_idempotent_witness :
  (exists value,
      make_custom_metadata
        (VDict [("key", VStr "genre"); ("string_value", VStr "poetry")])
      = Ok (VCustomMetadata (VStr "genre") value)) /\
  bind_result
    (make_custom_metadata
       (VProto "CustomMetadata"
          [("key", VStr "genre"); ("string_value", VStr "poetry")]))
    make_custom_metadata
  = Ok (VCustomMetadata (VStr "genre") (VStr "poetry")).
Proof.
  split.
  - apply (proj2 (proj2 make_custom_metadata_idempotent)). reflexivity.
  - rewrite (proj1 make_custom_metadata_idempotent). reflexivity.
Defined.

(** ** [Document._make_chunk] *)

(** C8: a tuple of two or three items gives a wire chunk with the name, the
    data as textual payload and the metadata (none for two items); a tuple
    of another length is refused with its length. *)
Theorem _make_chunk_tuple :
  (forall name data : string,
      Document._make_chunk (VTuple [VStr name; VStr data]) =
      Ok (VProto "Chunk"
            [("name", VStr name);
             ("data", VDict [("string_value", VStr data)]);
             ("custom_metadata", VNone)])) /\
  (forall (name data : string) (custom_metadata : val),
      Document._make_chunk (VTuple [VStr name; VStr data; custom_metadata]) =
      Ok (VProto "Chunk"
            [("name", VStr name);
             ("data", VDict [("string_value", VStr data)]);
             ("custom_metadata", custom_metadata)])) /\
  (forall xs,
      List.length xs <> 2 -> List.length xs <> 3 ->
      Document._make_chunk (VTuple xs) =
      Raise (ValueError (TupleLength (List.length xs) (VTuple xs)))) /\
  Document._make_chunk (VTuple [VStr "doc/chunks/a"; VStr "hello"]) =
  Ok (VProto "Chunk"
        [("name", VStr "doc/chunks/a");
         ("data", VDict [("string_value", VStr "hello")]);
         ("custom_metadata", VNone)]).
Proof.
  repeat split.
  intros xs H2 H3. unfold Document._make_chunk. simpl.
  destruct xs as [|a [|b [|c [|d xs]]]]; simpl in *;
    first [reflexivity | congruence].
Qed.

(** C8 on tuples of one and of four items. *)
Lemma _make_chunk_tuple_witness :
  Document._make_chunk (VTuple [VStr "a"]) =
  Raise (ValueError (TupleLength 1 (VTuple [VStr "a"]))) /\
  Document._make_chunk (VTuple [VStr "a"; VStr "b"; VNone; VNone]) =
  Raise (ValueError
           (TupleLength 4 (VTuple [VStr "a"; VStr "b"; VNone; VNone]))).
Proof.
  split.
  - apply (proj1 (proj2 (proj2 _make_chunk_tuple)) [VStr "a"]);
      simpl; lia.
  - apply (proj1 (proj2 (proj2 _make_chunk_tuple))
             [VStr "a"; VStr "b"; VNone; VNone]); simpl; lia.
Defined.

(** ** The store *)

Lemma getattr_ref (l : loc) (ob : obj) (name : string) (v : val) (st : store) :
  heap st !! l = Some ob -> attrs ob !! name = Some v ->
  getattr (VRef l) name st = (Ok v, st).
Proof. intros Hl Hn. unfold getattr. now rewrite Hl, Hn. Qed.

Lemma getattr_missing (l : loc) (ob : obj) (name : string) (st : store) :
  heap st !! l = Some ob -> attrs ob !! name = None ->
  getattr (VRef l) name st = (Raise (AttributeError name), st).
Proof. intros Hl Hn. unfold getattr. now rewrite Hl, Hn. Qed.

(** Reading an attribute never changes the store. *)
Lemma getattr_store (o : val) (name : string) (st : store) :
  snd (getattr o name st) = st.
Proof.
  unfold getattr. destruct o; try reflexivity.
  destruct (heap st !! l) as [ob|]; [|reflexivity].
  now destruct (attrs ob !! name).
Qed.

Lemma setattr_ref (l : loc) (ob : obj) (name : string) (v : val) (st : store) :
  heap st !! l = Some ob ->
  setattr (VRef l) name v st =
  (Ok tt,
   Store (<[l := Obj (cls ob) (<[name := v]> (attrs ob))]> (heap st))
     (next st) (calls st)).
Proof. intros Hl. unfold setattr. now rewrite Hl. Qed.

(** The loop that checks the flattened paths stops at the first path that
    is not the mutable one, and leaves the store alone. *)
Lemma for_each_validate (good : string) (err : string -> exn)
  (paths : list string) (st : store) :
  for_each paths
    (fun item => if String.eqb item good then ret tt else raise (err item)) st
  = match find (fun item => negb (String.eqb item good)) paths with
    | Some item => (Raise (err item), st)
    | None => (Ok tt, st)
    end.
Proof.
  induction paths as [|p paths IH]; simpl; [reflexivity|].
  unfold bind. destruct (String.eqb p good); simpl; [apply IH|reflexivity].
Qed.

Lemma find_other (good : string) (paths : list string) :
  (exists p, In p paths /\ p <> good) ->
  exists item,
    find (fun item => negb (String.eqb item good)) paths = Some item /\
    In item paths /\ item <> good.
Proof.
  intros (p & Hin & Hne).
  destruct (find (fun item => negb (String.eqb item good)) paths)
    as [item|] eqn:Hfind.
  - apply find_some in Hfind as [Hin' Hneg]. exists item.
    repeat split; [assumption|]. intros ->.
    now rewrite String.eqb_refl in Hneg.
  - apply (find_none _ _ Hfind) in Hin. apply negb_false_iff in Hin.
    now apply String.eqb_eq in Hin.
Qed.

(** What [find] returns is the first element that passes the test: the
    elements before it all fail. *)
Lemma find_first (good : string) (paths : list string) (item : string) :
  find (fun item => negb (String.eqb item good)) paths = Some item ->
  exists before after,
    paths = before ++ item :: after /\
    (forall p, In p before -> p = good) /\ item <> good.
Proof.
  induction paths as [|p paths IH]; simpl; [discriminate|].
  destruct (String.eqb_spec p good) as [->|Hne]; simpl.
  - intros Hfind. destruct (IH Hfind) as (before & after & -> & Hall & Hitem).
    exists (good :: before), after. repeat split; [|assumption].
    intros q [<-|Hq]; [reflexivity | now apply Hall].
  - intros [= <-]. exists [], paths. repeat split; [|assumption].
    intros q [].
Qed.

(** ** [update] on a path that is not the mutable field *)

(** C1, as the code has it, whatever [flatten_update_paths] returns.  An
    update of a corpus or of a document whose flattened paths include one
    other than [display_name] raises the unsupported-field error and leaves
    the store, requests included, as it was.  An update of a chunk whose
    flattened paths include one other than [data.string_value] raises and
    sends no request; the error is the unsupported-field error, naming the
    first such path (every path before it is [data.string_value]), when the
    custom metadata of the chunk converts to wire form. *)
Theorem update_unsupported_field
  (flatten_update_paths : list (string * val) -> list (string * val))
  (updates : list (string * val)) (self : val) (client : client)
  (st : store) :
  let paths := PyDict.keys (flatten_update_paths updates) in
  ((exists p, In p paths /\ p <> "display_name") ->
   Corpus.update flatten_update_paths self updates client st
   = (Raise (ValueError (OnlyDisplayName "Corpus")), st) /\
   Corpus.update_async flatten_update_paths self updates client st
   = (Raise (ValueError (OnlyDisplayName "Corpus")), st) /\
   Document.update flatten_update_paths self updates client st
   = (Raise (ValueError (OnlyDisplayName "Document")), st) /\
   Document.update_async flatten_update_paths self updates client st
   = (Raise (ValueError (OnlyDisplayName "Document")), st)) /\
  ((exists p, In p paths /\ p <> "data.string_value") ->
   exists e st',
     Chunk.update flatten_update_paths self updates client st
     = (Raise e, st') /\
     Chunk.update_async flatten_update_paths self updates client st
     = (Raise e, st') /\
     calls st' = calls st /\
     forall l ob custom_metadata c_data,
       self = VRef l -> heap st !! l = Some ob ->
       attrs ob !! "custom_metadata" = Some custom_metadata ->
       metadata_to_proto custom_metadata = Ok c_data ->
       exists before item after,
         paths = before ++ item :: after /\
         (forall p, In p before -> p = "data.string_value") /\
         item <> "data.string_value" /\
         e = ValueError (OnlyChunkData item)).
Proof.
  intros paths. split.
  - intros Hbad. apply find_other in Hbad as (item & Hfind & _ & _).
    unfold Corpus.update_async, Document.update_async.
    unfold Corpus.update, Document.update, bind.
    rewrite !for_each_validate. fold paths. rewrite Hfind. auto.
  - intros Hbad. apply find_other in Hbad as (item & Hfind & Hin & Hne).
    unfold Chunk.update_async, Chunk.update, bind.
    destruct (getattr self "custom_metadata" st) as [[cm|e] st1] eqn:Hget.
    2:{ pose proof (getattr_store self "custom_metadata" st) as Hst.
        rewrite Hget in Hst. simpl in Hst. subst st1.
        exists e, st. repeat split. intros l ob cm c_data -> Hl Hcm _.
        rewrite (getattr_ref l ob _ cm st Hl Hcm) in Hget. discriminate. }
    pose proof (getattr_store self "custom_metadata" st) as Hst.
    rewrite Hget in Hst. simpl in Hst. subst st1.
    unfold getattr in Hget. destruct self; try discriminate.
    destruct (heap st !! l) as [ob|] eqn:Hl; [|discriminate].
    destruct (attrs ob !! "custom_metadata") as [cm'|] eqn:Hcm;
      [|discriminate].
    injection Hget as ->.
    unfold lift. destruct (metadata_to_proto cm) as [c_data|e] eqn:Hproto.
    2:{ exists e, st. repeat split. intros l' ob' cm' c_data [= <-] Hl' Hcm'.
        rewrite Hl in Hl'. injection Hl' as <-. rewrite Hcm in Hcm'.
        injection Hcm' as <-. congruence. }
    rewrite (setattr_ref l ob _ _ st Hl).
    rewrite for_each_validate. fold paths. rewrite Hfind.
    apply find_first in Hfind as (before & after & Hpaths & Hall & _).
    eexists _, _. repeat split. intros _ _ _ _ _ _ _ _.
    exists before, item, after. auto.
Qed.

(** C1 on a corpus asked to change its [title], and on a chunk asked to
    change an [extra] field of its data. *)
Lemma update_unsupported_field_witness :
  Corpus.update utils.flatten_update_paths (VRef 1%positive)
    [("title", VStr "x")] accepting corpus_store
  = (Raise (ValueError (OnlyDisplayName "Corpus")), corpus_store) /\
  exists st',
    Chunk.update utils.flatten_update_paths (VRef 1%positive)
      [("data", VDict [("string_value", VStr "y"); ("extra", VNum 1)])]
      accepting (chunk_store VNone)
    = (Raise (ValueError (OnlyChunkData "data.extra")), st') /\
    calls st' = calls (chunk_store VNone).
Proof.
  split.
  - apply (proj1 (update_unsupported_field utils.flatten_update_paths
                    [("title", VStr "x")] (VRef 1%positive) accepting
                    corpus_store)).
    exists "title". split; [simpl; auto | discriminate].
  - destruct (proj2 (update_unsupported_field utils.flatten_update_paths
                       [("data", VDict [("string_value", VStr "y");
                                        ("extra", VNum 1)])]
                       (VRef 1%positive) accepting (chunk_store VNone)))
      as (e & st' & Hrun & _ & Hcalls & Hfirst).
    + exists "data.extra". split; [simpl; auto | discriminate].
    + destruct (Hfirst 1%positive (instance_at (chunk_store VNone) 1%positive)
                  (VList []) [] eq_refl eq_refl eq_refl eq_refl)
        as (before & item & after & Hpaths & Hall & Hitem & ->).
      exists st'. split; [|assumption]. rewrite Hrun.
      destruct before as [|p [|q before]].
      * injection Hpaths as <- _. now destruct Hitem.
      * injection Hpaths as _ <- _. reflexivity.
      * injection Hpaths as _ _ Hnil. now destruct before.
Defined.

(** C1 as stated fails on a chunk.  A chunk built from metadata with an
    empty [string_value] holds a [CustomMetadata] whose value is [None], and
    its update with the path [name] raises the invalid-value error of the
    conversion.  A chunk with string metadata raises the unsupported-field
    error on a first update with the path [name], and an attribute error on
    the second, the first having left wire messages in [custom_metadata]. *)
Lemma update_unsupported_field_counterexample :
  fst (Chunk.update utils.flatten_update_paths (VRef 1%positive)
         [("name", VStr "x")] accepting
         (chunk_store
            (VList [VDict [("key", VStr "k"); ("string_value", VStr "")]])))
  = Raise (ValueError (InvalidMetadataValue VNone)) /\
  fst (Chunk.update utils.flatten_update_paths (VRef 1%positive)
         [("name", VStr "x")] accepting
         (chunk_store (VList [VCustomMetadata (VStr "k") (VStr "v")])))
  = Raise (ValueError (OnlyChunkData "name")) /\
  fst (Chunk.update utils.flatten_update_paths (VRef 1%positive)
         [("name", VStr "x")] accepting
         (snd (Chunk.update utils.flatten_update_paths (VRef 1%positive)
                 [("name", VStr "x")] accepting
                 (chunk_store
                    (VList [VCustomMetadata (VStr "k") (VStr "v")])))))
  = Raise (AttributeError "_to_proto").
Proof. repeat split; vm_compute; reflexivity. Qed.

(** ** [Corpus.update] on [display_name] *)

(** C2: on a corpus, [update] with [display_name] mapped to a new title sends
    one request whose mask is the single path [display_name] and whose
    snapshot carries the new title; the instance at the reference given has
    the new title in its [display_name] and is otherwise as before, no other
    instance is touched, and the reference given is what the call returns
    when the service accepts the request.  [flatten_update_paths] is any
    function that leaves this flat dictionary as it is. *)
Theorem Corpus_update_display_name
  (flatten_update_paths : list (string * val) -> list (string * val))
  (l : loc) (ob : obj) (name : string) (client : client) (st : store) :
  flatten_update_paths [("display_name", VStr "new title")]
  = [("display_name", VStr "new title")] ->
  heap st !! l = Some ob ->
  attrs ob !! "name" = Some (VStr name) ->
  let request :=
    update_corpus
      (VDict [("name", VStr name); ("display_name", VStr "new title")])
      ["display_name"] in
  Corpus.update flatten_update_paths (VRef l)
    [("display_name", VStr "new title")] client st =
  (match client request with
   | Ok _ => Ok (VRef l)
   | Raise e => Raise e
   end,
   Store
     (<[l := Obj (cls ob)
               (<["display_name" := VStr "new title"]> (attrs ob))]> (heap st))
     (next st) (calls st ++ [request])).
Proof.
  intros Hflat Hl Hname request.
  unfold Corpus.update, bind.
  rewrite for_each_validate, Hflat.
  cbn [PyDict.keys map fst find String.eqb Ascii.eqb Bool.eqb negb for_each].
  unfold bind, Corpus._apply_update, _apply_update.
  change (split "." "display_name") with ["display_name"].
  cbn [apply_parts fst snd].
  rewrite (setattr_ref l ob _ _ st Hl). cbn [ret].
  unfold Corpus.to_dict, bind.
  set (ob' := Obj (cls ob) (<["display_name" := VStr "new title"]> (attrs ob))).
  set (st' := Store (<[l := ob']> (heap st)) (next st) (calls st)).
  assert (Hl' : heap st' !! l = Some ob') by apply lookup_insert_eq.
  rewrite (getattr_ref l ob' "name" (VStr name) st' Hl')
    by (unfold ob'; simpl; now rewrite lookup_insert_ne).
  rewrite (getattr_ref l ob' "display_name" (VStr "new title") st' Hl')
    by (unfold ob'; simpl; apply lookup_insert_eq).
  unfold ret, remote. fold request. simpl.
  destruct (client request); reflexivity.
Qed.

(** C2 on the sample corpus. *)
Lemma Corpus_update_display_name_witness :
  fst (Corpus.update utils.flatten_update_paths (VRef 1%positive)
         [("display_name", VStr "new title")] accepting corpus_store)
  = Ok (VRef 1%positive) /\
  calls (snd (Corpus.update utils.flatten_update_paths (VRef 1%positive)
                [("display_name", VStr "new title")] accepting corpus_store))
  = [update_corpus
       (VDict [("name", VStr "corpora/c"); ("display_name", VStr "new title")])
       ["display_name"]].
Proof.
  rewrite (Corpus_update_display_name utils.flatten_update_paths 1%positive
             (Corpus_obj (VStr "corpora/c") (VStr "old title") VNone VNone)
             "corpora/c" accepting corpus_store);
    [split; reflexivity | reflexivity | reflexivity | reflexivity].
Defined.

(** ** [Chunk.update] converts before it checks *)

Lemma _to_proto_is_proto (cm p : val) :
  CustomMetadata._to_proto cm = Ok p ->
  exists fields, p = VProto "CustomMetadata" fields.
Proof.
  unfold CustomMetadata._to_proto. destruct cm; try discriminate.
  destruct cm2; simpl; try discriminate;
    try (match goal with |- context [float_ ?z] => destruct (float_ z) end;
         simpl; try discriminate);
    intros [= <-]; eauto.
Qed.

Lemma metadata_to_proto_cons (x : val) (rest c_data : list val) :
  metadata_to_proto (VList (x :: rest)) = Ok c_data ->
  exists p ps, c_data = p :: ps /\ CustomMetadata._to_proto x = Ok p.
Proof.
  unfold metadata_to_proto.
  change (truthy (VList (x :: rest))) with true.
  cbn [iter bind_result map_result].
  destruct (CustomMetadata._to_proto x) as [p|e]; cbn [bind_result];
    [|discriminate].
  destruct (map_result CustomMetadata._to_proto rest) as [ps|e];
    cbn [bind_result]; [|discriminate].
  intros [= <-]. eauto.
Qed.

(** C9: when the custom metadata of a chunk converts to wire form and the
    flattened paths include one other than [data.string_value], [update]
    (and [update_async]) raises the unsupported-field error for the first
    such path, sends nothing, and leaves the chunk with the converted list
    in [custom_metadata]; if the list held a [CustomMetadata], the chunk is
    no longer what it was before the call.  [flatten_update_paths] is any
    function. *)
Theorem Chunk_update_not_atomic
  (flatten_update_paths : list (string * val) -> list (string * val))
  (l : loc) (ob : obj) (custom_metadata : val) (c_data : list val)
  (updates : list (string * val)) (client : client) (st : store) :
  let paths := PyDict.keys (flatten_update_paths updates) in
  let st' :=
    Store
      (<[l := Obj (cls ob)
                (<["custom_metadata" := VList c_data]> (attrs ob))]> (heap st))
      (next st) (calls st) in
  heap st !! l = Some ob ->
  attrs ob !! "custom_metadata" = Some custom_metadata ->
  metadata_to_proto custom_metadata = Ok c_data ->
  (exists p, In p paths /\ p <> "data.string_value") ->
  (exists item,
      In item paths /\ item <> "data.string_value" /\
      Chunk.update flatten_update_paths (VRef l) updates client st
      = (Raise (ValueError (OnlyChunkData item)), st') /\
      Chunk.update_async flatten_update_paths (VRef l) updates client st
      = (Raise (ValueError (OnlyChunkData item)), st')) /\
  (forall key value rest,
      custom_metadata = VList (VCustomMetadata key value :: rest) ->
      heap st' !! l <> heap st !! l).
Proof.
  intros paths st' Hl Hcm Hproto Hbad. split.
  - apply find_other in Hbad as (item & Hfind & Hin & Hne).
    exists item. repeat split; try assumption;
      unfold Chunk.update_async, Chunk.update, bind;
      rewrite (getattr_ref l ob _ _ st Hl Hcm);
      unfold lift; rewrite Hproto;
      rewrite (setattr_ref l ob _ _ st Hl);
      rewrite for_each_validate; fold paths; rewrite Hfind; reflexivity.
  - intros key value rest -> Heq.
    unfold st' in Heq. simpl in Heq. rewrite lookup_insert_eq, Hl in Heq.
    injection Heq as Heq.
    assert (Hsame : attrs (Obj (cls ob)
                             (<["custom_metadata" := VList c_data]> (attrs ob)))
                    !! "custom_metadata" = attrs ob !! "custom_metadata")
      by now rewrite Heq.
    simpl in Hsame. rewrite lookup_insert_eq, Hcm in Hsame.
    injection Hsame as ->.
    apply metadata_to_proto_cons in Hproto as (p & ps & [= <- _] & Hp).
    apply _to_proto_is_proto in Hp as [fields [=]].
Qed.

(** C9 on a chunk with one string-valued metadata entry: the update with
    the path [name] raises, and the chunk then holds the wire message. *)
Lemma Chunk_update_not_atomic_witness :
  exists item,
    fst (Chunk.update utils.flatten_update_paths (VRef 1%positive)
           [("name", VStr "x")] accepting metadata_chunk_store)
    = Raise (ValueError (OnlyChunkData item)) /\
    fst (getattr (VRef 1%positive) "custom_metadata"
           (snd (Chunk.update utils.flatten_update_paths (VRef 1%positive)
                   [("name", VStr "x")] accepting metadata_chunk_store)))
    = Ok (VList [VProto "CustomMetadata"
                   [("key", VStr "k"); ("string_value", VStr "v")]]).
Proof.
  destruct (Chunk_update_not_atomic utils.flatten_update_paths 1%positive
              (instance_at metadata_chunk_store 1%positive)
              (VList [VCustomMetadata (VStr "k") (VStr "v")])
              [VProto "CustomMetadata"
                 [("key", VStr "k"); ("string_value", VStr "v")]]
              [("name", VStr "x")] accepting metadata_chunk_store)
    as [(item & _ & _ & Hrun & _) _].
  - vm_compute. reflexivity.
  - vm_compute. reflexivity.
  - reflexivity.
  - exists "name". split; [simpl; auto | discriminate].
  - exists item. rewrite Hrun. split; [reflexivity | vm_compute; reflexivity].
Defined.

(** ** Computations that send nothing *)

Create HintDb calls.

Lemma keeps_ret {A : Type} (a : A) : keeps_calls (ret a).
Proof. intros st. reflexivity. Qed.

Lemma keeps_raise {A : Type} (e : exn) : keeps_calls (@raise A e).
Proof. intros st. reflexivity. Qed.

Lemma keeps_lift {A : Type} (r : result A) : keeps_calls (lift r).
Proof. intros st. reflexivity. Qed.

Lemma keeps_bind {A B : Type} (m : M A) (k : A -> M B) :
  keeps_calls m -> (forall a, keeps_calls (k a)) -> keeps_calls (bind m k).
Proof.
  intros Hm Hk st. unfold bind. specialize (Hm st).
  destruct (m st) as [[a|e] st1]; simpl in *; [|assumption].
  now rewrite Hk.
Qed.

Lemma keeps_getattr (o : val) (name : string) : keeps_calls (getattr o name).
Proof. intros st. now rewrite getattr_store. Qed.

Lemma keeps_setattr (o : val) (name : string) (v : val) :
  keeps_calls (setattr o name v).
Proof.
  intros st. unfold setattr. destruct o; try reflexivity.
  now destruct (heap st !! l).
Qed.

Lemma keeps_new (c : string) (fields : list (string * val)) :
  keeps_calls (new c fields).
Proof. intros st. reflexivity. Qed.

Lemma keeps_map_M {A B : Type} (f : A -> M B) (xs : list A) :
  (forall x, keeps_calls (f x)) -> keeps_calls (map_M f xs).
Proof.
  intros Hf. induction xs as [|x xs IH]; simpl; [apply keeps_ret|].
  apply keeps_bind; [apply Hf|]. intros y.
  apply keeps_bind; [apply IH|]. intros ys. apply keeps_ret.
Qed.

Lemma keeps_for_each {A : Type} (xs : list A) (body : A -> M unit) :
  (forall x, keeps_calls (body x)) -> keeps_calls (for_each xs body).
Proof.
  intros Hb. induction xs as [|x xs IH]; simpl; [apply keeps_ret|].
  apply keeps_bind; [apply Hb|]. intros _. apply IH.
Qed.

#[local] Hint Resolve keeps_ret keeps_raise keeps_lift keeps_getattr
  keeps_setattr keeps_new : calls.

(** Rounds of [bind] are peeled off until a primitive is met. *)
Ltac keeps :=
  repeat first
    [ apply keeps_bind; [|intros ?]
    | apply keeps_map_M; intros ?
    | apply keeps_for_each; intros ?
    | solve [auto with calls]
    | match goal with
      | |- keeps_calls (match ?x with _ => _ end) => destruct x
      end ].

Lemma keeps_apply_update (self : val) (path : string) (value : val) :
  keeps_calls (_apply_update self path value).
Proof.
  unfold _apply_update. generalize (split "."%char path). intros parts.
  revert self. induction parts as [|part rest IH]; intros self; simpl.
  - apply keeps_ret.
  - destruct rest as [|part' rest]; [apply keeps_setattr|].
    apply keeps_bind; [apply keeps_getattr|]. intros self'. apply IH.
Qed.

Lemma keeps_Chunk_init (strptime : val -> result val)
  (name data custom_metadata state create_time update_time : val) :
  keeps_calls
    (Chunk.__init__ strptime name data custom_metadata state create_time
       update_time).
Proof. unfold Chunk.__init__. keeps. Qed.

Lemma keeps_from_kwargs (strptime : val -> result val) (kwargs : val) :
  keeps_calls (Chunk.from_kwargs strptime kwargs).
Proof.
  unfold Chunk.from_kwargs. keeps.
Qed.

Lemma keeps_relevant_chunks (strptime : val -> result val) (response : val) :
  keeps_calls (relevant_chunks strptime response).
Proof.
  unfold relevant_chunks, relevant_chunk. keeps.
Qed.

(** ** The bound on [results_count] *)

Lemma check_results_count_above (out_of_bounds : Z -> bool) (n : Z)
  (st : store) :
  n <> 0%Z -> out_of_bounds n = true ->
  check_results_count out_of_bounds (VNum n) st
  = (Raise (ValueError ResultsCountBounds), st).
Proof.
  intros Hn Hout. unfold check_results_count. simpl.
  apply Z.eqb_neq in Hn. now rewrite Hn, Hout.
Qed.

Lemma check_results_count_pass (out_of_bounds : Z -> bool) (n : Z)
  (st : store) :
  n = 0%Z \/ out_of_bounds n = false ->
  check_results_count out_of_bounds (VNum n) st = (Ok tt, st).
Proof.
  intros Hn. unfold check_results_count. simpl.
  destruct (Z.eqb n 0) eqn:Hz; [reflexivity|]. simpl.
  destruct Hn as [->|Hout]; [discriminate|]. now rewrite Hout.
Qed.

(** C5 on the code.  [Document.query] and [Document.query_async] refuse a
    [results_count] of 100, although 100 lies in the bound the error message
    gives; [Corpus.query] and [Corpus.query_async] let a [results_count] of
    zero or less through and send the request; a [results_count] above 100
    is refused by all four before anything is sent. *)
Theorem query_results_count (strptime : val -> result val)
  (q : string) (metadata_filters : val) (client : client) (st : store) :
  (forall self,
      Document.query strptime self (VStr q) metadata_filters (VNum 100)
        client st
      = (Raise (ValueError ResultsCountBounds), st) /\
      Document.query_async strptime self (VStr q) metadata_filters (VNum 100)
        client st
      = (Raise (ValueError ResultsCountBounds), st)) /\
  (forall l ob name n,
      (n <= 0)%Z ->
      heap st !! l = Some ob -> attrs ob !! "name" = Some (VStr name) ->
      calls (snd (Corpus.query strptime (VRef l) (VStr q) VNone (VNum n)
                    client st))
      = calls st ++ [query_corpus (VStr name) (VStr q) [] (VNum n)] /\
      calls (snd (Corpus.query_async strptime (VRef l) (VStr q) VNone
                    (VNum n) client st))
      = calls st ++ [query_corpus (VStr name) (VStr q) [] (VNum n)]) /\
  (forall self n,
      (100 < n)%Z ->
      Corpus.query strptime self (VStr q) metadata_filters (VNum n) client st
      = (Raise (ValueError ResultsCountBounds), st) /\
      Corpus.query_async strptime self (VStr q) metadata_filters (VNum n)
        client st
      = (Raise (ValueError ResultsCountBounds), st) /\
      Document.query strptime self (VStr q) metadata_filters (VNum n) client st
      = (Raise (ValueError ResultsCountBounds), st) /\
      Document.query_async strptime self (VStr q) metadata_filters (VNum n)
        client st
      = (Raise (ValueError ResultsCountBounds), st)).
Proof.
  split; [|split].
  - intros self. split; reflexivity.
  - intros l ob name n Hn Hl Hname.
    unfold Corpus.query_async.
    assert (Hgoal :
      calls (snd (Corpus.query strptime (VRef l) (VStr q) VNone (VNum n)
                    client st))
      = calls st ++ [query_corpus (VStr name) (VStr q) [] (VNum n)]);
      [|now split].
    unfold Corpus.query, bind.
    rewrite check_results_count_pass
      by (destruct (Z.eq_dec n 0%Z); [now left|right; apply Z.ltb_ge; lia]).
    cbn [filters_to_proto truthy lift].
    rewrite (getattr_ref l ob _ _ st Hl Hname).
    unfold remote.
    destruct (client (query_corpus (VStr name) (VStr q) [] (VNum n)))
      as [response|e]; [|reflexivity].
    now rewrite keeps_relevant_chunks.
  - intros self n Hn.
    unfold Corpus.query_async, Document.query_async.
    unfold Corpus.query, Document.query, bind.
    rewrite !check_results_count_above;
      first [ lia
            | apply Z.ltb_lt; lia
            | apply orb_true_iff; right; apply Z.leb_le; lia
            | auto ].
Qed.

(** C5 at 150 on the sample document and at -5 on the sample corpus. *)
Lemma query_results_count_witness :
  Document.query no_strptime (VRef 1%positive) (VStr "q") VNone (VNum 150)
    silent document_store
  = (Raise (ValueError ResultsCountBounds), document_store) /\
  calls (snd (Corpus.query no_strptime (VRef 1%positive) (VStr "q") VNone
                (VNum (-5)) silent corpus_store))
  = [query_corpus (VStr "corpora/c") (VStr "q") [] (VNum (-5))].
Proof.
  split.
  - apply (proj2 (proj2 (query_results_count no_strptime "q" VNone
                           silent document_store)) (VRef 1%positive) 150%Z).
    lia.
  - apply (proj1 (proj2 (query_results_count no_strptime "q" VNone
                           silent corpus_store))
             1%positive
             (Corpus_obj (VStr "corpora/c") (VStr "old title") VNone VNone)
             "corpora/c" (-5)%Z);
      [lia | reflexivity | reflexivity].
Defined.

(** ** [Chunk.__init__] and the attribute [data] *)

Lemma hoare_bind {A B : Type} (P : store -> Prop) (m : M A)
  (Q : A -> store -> Prop) (k : A -> M B) (R : B -> store -> Prop) :
  hoare P m Q -> (forall a, hoare (Q a) (k a) R) -> hoare P (bind m k) R.
Proof.
  intros Hm Hk st HP. unfold bind. specialize (Hm st HP).
  destruct (m st) as [[a|e] st1]; [|exact I]. now apply Hk.
Qed.

Lemma hoare_lift {A : Type} (P : store -> Prop) (r : result A) :
  hoare P (lift r) (fun _ => P).
Proof. intros st HP. unfold lift. now destruct r. Qed.

Lemma hoare_ret {A : Type} (P : store -> Prop) (a : A) :
  hoare P (ret a) (fun x st => x = a /\ P st).
Proof. intros st HP. simpl. auto. Qed.

Lemma hoare_skip (P : store -> Prop) : hoare P (ret tt) (fun _ => P).
Proof. intros st HP. exact HP. Qed.

(** Setting another attribute keeps [data] unset. *)
Lemma hoare_setattr (l : loc) (name : val) (attr : string) (v : val) :
  attr <> "name" -> attr <> "data" ->
  hoare (data_unset l name) (setattr (VRef l) attr v)
    (fun _ => data_unset l name).
Proof.
  intros Hn Hd st (ob & Hl & Hname & Hdata). unfold setattr. rewrite Hl.
  eexists. simpl. rewrite lookup_insert_eq. split; [reflexivity|]. simpl.
  now rewrite !lookup_insert_ne by congruence.
Qed.

Ltac hoare_step :=
  first
    [ eapply hoare_bind; [apply hoare_lift|intros ?]
    | eapply hoare_bind; [apply hoare_setattr; discriminate|intros ?]
    | eapply hoare_bind; [apply hoare_skip|intros ?] ].

(** Once [name] is stored, the rest of [__init__] for a [data] that is
    neither a string nor a dictionary returns the instance with [data]
    unset. *)
Lemma Chunk_init_tail (strptime : val -> result val) (l : loc)
  (name custom_metadata state create_time update_time : val) :
  hoare (data_unset l name)
    (match custom_metadata with
     | VNone => setattr (VRef l) "custom_metadata" (VList [])
     | _ =>
         cms <- lift (iter custom_metadata) ;;
         cms' <- lift (map_result make_custom_metadata cms) ;;
         setattr (VRef l) "custom_metadata" (VList cms')
     end ;;;
     so <- lift (Chunk.state_options state) ;;
     s <- lift (to_state so) ;;
     setattr (VRef l) "state" (VState s) ;;;
     ct <- lift (Chunk.decode_time strptime create_time) ;;
     setattr (VRef l) "create_time" ct ;;;
     ut <- lift (Chunk.decode_time strptime update_time) ;;
     setattr (VRef l) "update_time" ut ;;;
     ret (VRef l))%py
    (fun self st => self = VRef l /\ data_unset l name st).
Proof.
  eapply hoare_bind with (Q := fun _ => data_unset l name).
  - destruct custom_metadata;
      first [ apply hoare_setattr; discriminate
            | repeat hoare_step; apply hoare_setattr; discriminate ].
  - intros _. repeat hoare_step. apply hoare_ret.
Qed.

(** C10: when the [data] argument is neither a string nor a dictionary, a
    chunk that the constructor returns has no attribute [data], so reading
    it, and with it [to_dict], raises the attribute error; and the
    constructor does return when there is no metadata, the state is known
    and the times are absent or parse. *)
Theorem Chunk_init_data_unset (strptime : val -> result val)
  (name data custom_metadata state create_time update_time : val)
  (st : store) :
  (forall s, data <> VStr s) ->
  (forall items, data <> VDict items) ->
  (forall self st',
      Chunk.__init__ strptime name data custom_metadata state create_time
        update_time st = (Ok self, st') ->
      getattr self "data" st' = (Raise (AttributeError "data"), st') /\
      Chunk.to_dict self st' = (Raise (AttributeError "data"), st')) /\
  (forall so s ct ut,
      custom_metadata = VNone ->
      Chunk.state_options state = Ok so -> to_state so = Ok s ->
      Chunk.decode_time strptime create_time = Ok ct ->
      Chunk.decode_time strptime update_time = Ok ut ->
      exists st',
        Chunk.__init__ strptime name data custom_metadata state create_time
          update_time st = (Ok (VRef (next st)), st')).
Proof.
  intros Hstr Hdict.
  assert (Hskip :
    match data with
    | VStr _ =>
        d <- new "ChunkData" [("string_value", data)] ;;
        setattr (VRef (next st)) "data" d
    | VDict items =>
        s <- lift (dict_item items "string_value") ;;
        d <- new "ChunkData" [("string_value", s)] ;;
        setattr (VRef (next st)) "data" d
    | _ => ret tt
    end%py = ret tt).
  { destruct data; try reflexivity;
      [now destruct (Hstr s) | now destruct (Hdict items)]. }
  set (st1 := Store (<[next st := Obj "Chunk" (<["name" := name]> ∅)]>
                       (<[next st := Obj "Chunk" ∅]> (heap st)))
                (Pos.succ (next st)) (calls st)).
  assert (Hrun :
    Chunk.__init__ strptime name data custom_metadata state create_time
      update_time st
    = (match custom_metadata with
       | VNone => setattr (VRef (next st)) "custom_metadata" (VList [])
       | _ =>
           cms <- lift (iter custom_metadata) ;;
           cms' <- lift (map_result make_custom_metadata cms) ;;
           setattr (VRef (next st)) "custom_metadata" (VList cms')
       end ;;;
       so <- lift (Chunk.state_options state) ;;
       s <- lift (to_state so) ;;
       setattr (VRef (next st)) "state" (VState s) ;;;
       ct <- lift (Chunk.decode_time strptime create_time) ;;
       setattr (VRef (next st)) "create_time" ct ;;;
       ut <- lift (Chunk.decode_time strptime update_time) ;;
       setattr (VRef (next st)) "update_time" ut ;;;
       ret (VRef (next st)))%py st1).
  { unfold Chunk.__init__. unfold bind at 1. cbn [new].
    unfold bind at 1. unfold setattr at 1. cbn [heap next calls].
    rewrite lookup_insert_eq. cbn [cls attrs list_to_map foldr].
    unfold bind at 1. rewrite Hskip. reflexivity. }
  assert (Hst1 : data_unset (next st) name st1).
  { eexists. unfold st1. simpl. rewrite lookup_insert_eq.
    split; [reflexivity|]. simpl. rewrite lookup_insert_eq.
    now rewrite lookup_insert_ne, lookup_empty by discriminate. }
  split.
  - intros self st' Hok. rewrite Hrun in Hok.
    pose proof (Chunk_init_tail strptime (next st) name custom_metadata state
                  create_time update_time st1 Hst1) as Htail.
    rewrite Hok in Htail. destruct Htail as [-> (ob & Hl & Hname & Hdata)].
    split.
    + now apply (getattr_missing _ ob).
    + unfold Chunk.to_dict, bind.
      rewrite (getattr_ref _ ob "name" name st' Hl Hname).
      now rewrite (getattr_missing _ ob "data" st' Hl Hdata).
  - intros so s ct ut -> Hso Hs Hct Hut. rewrite Hrun.
    unfold bind, lift. unfold setattr at 1. unfold st1 at 1.
    cbn [heap next calls]. rewrite lookup_insert_eq.
    rewrite Hso, Hs. unfold setattr at 1. cbn [heap next calls].
    rewrite lookup_insert_eq. rewrite Hct.
    unfold setattr at 1. cbn [heap next calls]. rewrite lookup_insert_eq.
    rewrite Hut.
    unfold setattr at 1. cbn [heap next calls]. rewrite lookup_insert_eq.
    eexists. reflexivity.
Qed.

(** C10 on a [ChunkData] instance passed as [data]: the constructor returns
    a chunk whose [to_dict] raises. *)
Lemma Chunk_init_data_unset_witness :
  exists st',
    Chunk.__init__ no_strptime (VStr "corpora/c/documents/d/chunks/k")
      (VRef 1%positive) VNone (VStr "active") VNone VNone data_store
    = (Ok (VRef 2%positive), st') /\
    Chunk.to_dict (VRef 2%positive) st'
    = (Raise (AttributeError "data"), st').
Proof.
  destruct (Chunk_init_data_unset no_strptime
              (VStr "corpora/c/documents/d/chunks/k") (VRef 1%positive)
              VNone (VStr "active") VNone VNone data_store)
    as [Hunset Hreturns]; [discriminate | discriminate |].
  destruct (Hreturns (OfStr "active") STATE_ACTIVE VNone VNone
              eq_refl eq_refl eq_refl eq_refl eq_refl) as [st' Hrun].
  exists st'. split; [exact Hrun|]. exact (proj2 (Hunset _ _ Hrun)).
Defined.

(** ** The field mask of [Corpus.update] *)

(** Whatever the update, a request that [Corpus.update] sends carries one
    mask entry per flattened path, in the order of the flattened
    dictionary, and no call sends more than one request. *)
Lemma Corpus_update_mask
  (flatten_update_paths : list (string * val) -> list (string * val))
  (self : val) (updates : list (string * val)) (client : client)
  (st : store) :
  calls (snd (Corpus.update flatten_update_paths self updates client st))
  = calls st \/
  exists corpus,
    calls (snd (Corpus.update flatten_update_paths self updates client st))
    = calls st ++
      [update_corpus corpus (PyDict.keys (flatten_update_paths updates))].
Proof.
  unfold Corpus.update, bind.
  rewrite for_each_validate.
  destruct (find _ _); [now left|].
  pose proof (keeps_for_each (flatten_update_paths updates)
                (fun pv => Corpus._apply_update self (fst pv) (snd pv))
                (fun pv => keeps_apply_update self (fst pv) (snd pv)) st)
    as Hloop.
  destruct (for_each (flatten_update_paths updates) _ st) as [[[]|e] st1];
    simpl in Hloop; [|now left].
  unfold Corpus.to_dict, bind.
  pose proof (getattr_store self "name" st1) as H1.
  destruct (getattr self "name" st1) as [[name|e] st2]; simpl in H1; subst st2;
    [|now left].
  pose proof (getattr_store self "display_name" st1) as H2.
  destruct (getattr self "display_name" st1) as [[dn|e] st2]; simpl in H2;
    subst st2; [|now left].
  right. exists (VDict [("name", name); ("display_name", dn)]).
  unfold ret, remote. simpl. rewrite Hloop.
  now destruct (client _).
Qed.

(** ** Runs on the sample stores *)

(** The nested form of the one path a chunk lets through. *)
Example flatten_nested_data :
  utils.flatten_update_paths [("data", VDict [("string_value", VStr "new")])]
  = [("data.string_value", VStr "new")].
Proof. reflexivity. Qed.

(** A chunk built from a string has its [data], and [to_dict] reads it. *)
Example Chunk_to_dict_sample :
  fst (Chunk.to_dict (VRef 1%positive) metadata_chunk_store)
  = Ok (VDict
          [("name", VStr "corpora/c/documents/d/chunks/k");
           ("data", VDict [("string_value", VStr "some text")]);
           ("custom_metadata",
            VList [VDict [("key", VStr "k"); ("string_value", VStr "v")]]);
           ("state", VState STATE_ACTIVE)]).
Proof. vm_compute. reflexivity. Qed.

(** The update of the text of a chunk without metadata goes through: one
    request, with the one path in its mask and the new text in its
    snapshot. *)
Example Chunk_update_sample :
  fst (Chunk.update utils.flatten_update_paths (VRef 1%positive)
         [("data", VDict [("string_value", VStr "new")])] accepting
         (chunk_store VNone))
  = Ok (VRef 1%positive) /\
  calls (snd (Chunk.update utils.flatten_update_paths (VRef 1%positive)
                [("data", VDict [("string_value", VStr "new")])] accepting
                (chunk_store VNone)))
  = [update_chunk
       (VDict
          [("name", VStr "corpora/c/documents/d/chunks/k");
           ("data", VDict [("string_value", VStr "new")]);
           ("custom_metadata", VList []);
           ("state", VState STATE_ACTIVE)])
       ["data.string_value"]].
Proof. split; vm_compute; reflexivity. Qed.

(** * Further properties *)

(** ** [to_state] *)

Lemma lower_idempotent (s : string) : lower (lower s) = lower s.
Proof.
  induction s as [|c s IH]; simpl; [reflexivity|]. rewrite IH. f_equal.
  unfold lower_char. destruct (is_upper c) eqn:Hc; [|now rewrite Hc].
  unfold is_upper, code in *. apply andb_true_iff in Hc as [H1 H2].
  apply Nat.leb_le in H1, H2.
  rewrite nat_ascii_embedding by lia.
  replace (65 <=? nat_of_ascii c + 32)%nat with true
    by (symmetry; apply Nat.leb_le; lia).
  replace (nat_of_ascii c + 32 <=? 90)%nat with false
    by (symmetry; apply Nat.leb_gt; lia).
  reflexivity.
Qed.

(** X1: the inputs that [to_state] accepts, and what it returns for them.
    A member is returned as it is, an integer is accepted when it is the
    integer of a member, and a string when its lower-case form is one of
    the eight names of the table; nothing else is accepted. *)
Theorem to_state_domain (x : StateOptions) (s : State) :
  to_state x = Ok s <->
  match x with
  | OfEnum e => e = s
  | OfInt z => z = State_value s
  | OfStr name =>
      In (lower name, s)
        [("state_unspecifed", STATE_UNSPECIFIED);
         ("unspecified", STATE_UNSPECIFIED);
         ("pending_processing", STATE_PENDING_PROCESSING);
         ("pending", STATE_PENDING_PROCESSING);
         ("state_active", STATE_ACTIVE); ("active", STATE_ACTIVE);
         ("state_failed", STATE_FAILED); ("failed", STATE_FAILED)]
  end.
Proof.
  assert (Hok : forall a b : State, Ok a = Ok b <-> a = b)
    by (intros a b; split; congruence).
  destruct x as [e|z|name].
  - destruct e; cbv [to_state]; rewrite <- Hok; reflexivity.
  - unfold to_state.
    let t := eval vm_compute in _STATE in change _STATE with t.
    cbn [PyDict.get key_eqb State_value].
    repeat match goal with
           | |- context [Z.eqb ?a z] =>
               destruct (Z.eqb_spec a z) as [?|?]; [subst z|]
           end;
      (split;
       [ intros H; first [discriminate H | injection H as <-; reflexivity]
       | intros H; destruct s; simpl in H;
         first [reflexivity | congruence | subst; congruence] ]).
  - unfold to_state.
    let t := eval vm_compute in _STATE in change _STATE with t.
    cbn [PyDict.get key_eqb State_value].
    generalize (lower name). intros k. cbn [In].
    repeat match goal with
           | |- context [String.eqb ?a k] =>
               destruct (String.eqb_spec a k) as [?|?]; [subst k|]
           end;
      (split;
       [ intros H; first [discriminate H | injection H as <-; tauto]
       | intros H;
         repeat (destruct H as [H|H]; [congruence|]);
         destruct H ]).
Qed.

(** ** [float] on an integer *)


(** ** [MetadataFilter._to_proto] keeps one [kwargs] for all conditions *)

Lemma dict_get_set (d : list (string * val)) (k q : string) (v : val) :
  PyDict.get String.eqb (PyDict.set String.eqb d k v) q =
  if String.eqb k q then Some v else PyDict.get String.eqb d q.
Proof.
  apply get_set.
  - apply String.eqb_sym.
  - intros a b c Hab. apply String.eqb_eq in Hab. now subst.
Qed.






(** ** [CustomMetadata] through its dictionary and back *)




(** ** [Document._make_chunk] on its other shapes *)

Lemma _make_chunk_is_proto (chunk p : val) :
  Document._make_chunk chunk = Ok p -> is_proto "Chunk" p = true.
Proof.
  unfold Document._make_chunk.
  destruct (is_proto "Chunk" chunk) eqn:Hp; [now intros [= <-]|].
  destruct chunk; try discriminate.
  - intros [= <-]. reflexivity.
  - destruct xs as [|a [|b [|c [|d xs]]]]; simpl; try discriminate;
      intros [= <-]; reflexivity.
  - destruct (dict_item items "data") as [data|e]; simpl; [|discriminate].
    destruct data; intros [= <-]; reflexivity.
Qed.

(** X4: what [_make_chunk] returns is a wire chunk, and a wire chunk is
    returned as it is, so building a chunk twice is building it once, for
    every input, refused ones included. *)
Theorem _make_chunk_idempotent (chunk : val) :
  bind_result (Document._make_chunk chunk) Document._make_chunk
  = Document._make_chunk chunk /\
  (forall p, Document._make_chunk chunk = Ok p -> is_proto "Chunk" p = true).
Proof.
  split; [|intros p; apply _make_chunk_is_proto].
  destruct (Document._make_chunk chunk) as [p|e] eqn:Hc; simpl; [|reflexivity].
  apply _make_chunk_is_proto in Hc. unfold Document._make_chunk.
  now rewrite Hc.
Qed.

(** X5: a mapping goes through [_make_chunk] with its keys in their order;
    a string under [data] is wrapped, so the mapping with the string and
    the mapping with the wrapped string give the same chunk; a mapping
    without [data] raises [KeyError]; a bare string gives a chunk with data
    only; a list, a number and [None] are refused with [TypeError]. *)
Theorem _make_chunk_shapes :
  (forall items s,
      dict_item items "data" = Ok (VStr s) ->
      let wrapped :=
        PyDict.set String.eqb items "data" (VDict [("string_value", VStr s)]) in
      Document._make_chunk (VDict items) = Ok (VProto "Chunk" wrapped) /\
      Document._make_chunk (VDict wrapped) = Ok (VProto "Chunk" wrapped) /\
      PyDict.keys wrapped = PyDict.keys items) /\
  (forall items,
      PyDict.get String.eqb items "data" = None ->
      Document._make_chunk (VDict items) = Raise (KeyError (VStr "data"))) /\
  (forall s,
      Document._make_chunk (VStr s)
      = Ok (VProto "Chunk" [("data", VDict [("string_value", VStr s)])])) /\
  (forall xs,
      Document._make_chunk (VList xs) = Raise (TypeError (VList xs))) /\
  (forall z, Document._make_chunk (VNum z) = Raise (TypeError (VNum z))) /\
  Document._make_chunk VNone = Raise (TypeError VNone).
Proof.
  split; [|split; [|split; [|split; [|split]]]]; try reflexivity.
  - intros items s Hdata wrapped. split; [|split].
    + unfold Document._make_chunk. simpl. now rewrite Hdata.
    + unfold Document._make_chunk. simpl. unfold dict_item, wrapped.
      rewrite dict_get_set. reflexivity.
    + unfold dict_item in Hdata.
      destruct (PyDict.get String.eqb items "data") as [v|] eqn:Hget;
        [|discriminate].
      clear Hdata. subst wrapped. revert v Hget.
      induction items as [|[k x] items IH]; intros v Hget; [discriminate|].
      simpl in *. destruct (String.eqb k "data"); [reflexivity|].
      simpl. f_equal. now apply (IH v).
  - intros items H. unfold Document._make_chunk, dict_item. simpl.
    now rewrite H.
Qed.

(** X5 on a mapping with a name and a string under [data]. *)
Lemma _make_chunk_shapes_witness :
  Document._make_chunk (VDict [("name", VStr "n"); ("data", VStr "text")])
  = Ok (VProto "Chunk"
          [("name", VStr "n");
           ("data", VDict [("string_value", VStr "text")])]) /\
  Document._make_chunk (VDict [("name", VStr "n")])
  = Raise (KeyError (VStr "data")).
Proof.
  split.
  - apply (proj1 _make_chunk_shapes [("name", VStr "n"); ("data", VStr "text")]
             "text" eq_refl).
  - apply (proj1 (proj2 _make_chunk_shapes) [("name", VStr "n")] eq_refl).
Defined.

(** ** [_apply_update] on plain and dotted paths *)

Lemma split_plain (a : string) :
  string_forallb (fun c => negb (Ascii.eqb c ".")) a = true ->
  split "." a = [a].
Proof.
  induction a as [|c a IH]; simpl; [reflexivity|]. intros H.
  apply andb_true_iff in H as [Hc Ha]. apply negb_true_iff in Hc.
  rewrite Hc, (IH Ha). reflexivity.
Qed.

Lemma split_dotted (a rest : string) :
  string_forallb (fun c => negb (Ascii.eqb c ".")) a = true ->
  split "." (a ++ String "." rest)%string = a :: split "." rest.
Proof.
  induction a as [|c a IH]; simpl; [reflexivity|]. intros H.
  apply andb_true_iff in H as [Hc Ha]. apply negb_true_iff in Hc.
  rewrite Hc, (IH Ha). reflexivity.
Qed.

Lemma dataclass_fields_plain (c a : string) :
  In a (dataclass_fields c) ->
  string_forallb (fun c => negb (Ascii.eqb c ".")) a = true.
Proof.
  unfold dataclass_fields.
  repeat match goal with
         | |- context [String.eqb c ?k] => destruct (String.eqb c k)
         end;
    cbn [In]; intros H;
    repeat (destruct H as [<-|H]; [reflexivity|]); destruct H.
Qed.

(** X6: on the fields that the classes declare, the path [b] sets the
    field [b] of the instance itself; the path [a.b] sets the field [b] of
    the instance that the field [a] refers to, and nothing else, so that
    every instance sharing it sees the change; and when the instance has
    no value for the field [a], a path that starts with [a.] raises the
    attribute error for [a] and changes nothing. *)
Theorem _apply_update_paths (l : loc) (ob : obj) (a b : string) (v : val)
  (st : store) :
  heap st !! l = Some ob ->
  (In b (dataclass_fields (cls ob)) ->
   _apply_update (VRef l) b v st
   = (Ok tt,
      Store (<[l := Obj (cls ob) (<[b := v]> (attrs ob))]> (heap st))
        (next st) (calls st))) /\
  (forall d od,
      In a (dataclass_fields (cls ob)) ->
      attrs ob !! a = Some (VRef d) -> heap st !! d = Some od ->
      In b (dataclass_fields (cls od)) ->
      _apply_update (VRef l) (a ++ String "." b)%string v st
      = (Ok tt,
         Store (<[d := Obj (cls od) (<[b := v]> (attrs od))]> (heap st))
           (next st) (calls st))) /\
  (In a (dataclass_fields (cls ob)) ->
   string_forallb (fun c => negb (Ascii.eqb c ".")) b = true ->
   attrs ob !! a = None ->
   _apply_update (VRef l) (a ++ String "." b)%string v st
   = (Raise (AttributeError a), st)).
Proof.
  intros Hl. unfold _apply_update. split; [|split].
  - intros Hb. rewrite (split_plain b (dataclass_fields_plain _ _ Hb)).
    now apply setattr_ref.
  - intros d od Ha Hattr Hd Hb.
    rewrite (split_dotted a b (dataclass_fields_plain _ _ Ha)),
      (split_plain b (dataclass_fields_plain _ _ Hb)).
    cbn [apply_parts]. unfold bind.
    rewrite (getattr_ref l ob a _ st Hl Hattr). now apply setattr_ref.
  - intros Ha Hb Hattr.
    rewrite (split_dotted a b (dataclass_fields_plain _ _ Ha)),
      (split_plain b Hb).
    cbn [apply_parts]. unfold bind.
    now rewrite (getattr_missing l ob a st Hl Hattr).
Qed.

(** X6 on the text of the sample chunk, whose [ChunkData] is at
    reference 2, and on a chunk built with [None] for its data. *)
Lemma _apply_update_paths_witness :
  fst (_apply_update (VRef 1%positive) "data.string_value" (VStr "new")
         (chunk_store VNone))
  = Ok tt /\
  fst (getattr (VRef 2%positive) "string_value"
         (snd (_apply_update (VRef 1%positive) "data.string_value"
                 (VStr "new") (chunk_store VNone))))
  = Ok (VStr "new") /\
  fst (_apply_update (VRef 1%positive) "data.string_value" (VStr "new")
         (snd (Chunk.__init__ no_strptime (VStr "corpora/c/documents/d/chunks/k")
                 VNone VNone (VStr "active") VNone VNone empty_store)))
  = Raise (AttributeError "data").
Proof.
  destruct (_apply_update_paths 1%positive
              (instance_at (chunk_store VNone) 1%positive)
              "data" "string_value" (VStr "new") (chunk_store VNone))
    as (_ & Hnested & _); [reflexivity|].
  destruct (_apply_update_paths 1%positive
              (instance_at
                 (snd (Chunk.__init__ no_strptime
                         (VStr "corpora/c/documents/d/chunks/k")
                         VNone VNone (VStr "active") VNone VNone empty_store))
                 1%positive)
              "data" "string_value" (VStr "new")
              (snd (Chunk.__init__ no_strptime
                      (VStr "corpora/c/documents/d/chunks/k")
                      VNone VNone (VStr "active") VNone VNone empty_store)))
    as (_ & _ & Hunset); [reflexivity|].
  change ("data" ++ String "." "string_value")%string
    with "data.string_value" in Hnested, Hunset.
  rewrite (Hnested 2%positive
             (instance_at (chunk_store VNone) 2%positive));
    [ | vm_compute; tauto | vm_compute; reflexivity | vm_compute; reflexivity
      | vm_compute; tauto ].
  rewrite Hunset;
    [ | vm_compute; tauto | reflexivity | vm_compute; reflexivity ].
  split; [reflexivity|]. split; [vm_compute; reflexivity | reflexivity].
Defined.

(** ** [Chunk.update] on a chunk that has custom metadata *)

(** X7: a chunk whose [custom_metadata] is a list that is not empty never
    gets its text to the service.  When the metadata converts and the one
    flattened path is [data.string_value], [update] stores the wire
    messages in [custom_metadata], sets the new text in the [ChunkData] of
    the chunk, and then raises the attribute error of [_to_dict], which
    [to_dict] calls on the wire messages; no request is sent. *)
Theorem Chunk_update_with_metadata
  (flatten_update_paths : list (string * val) -> list (string * val))
  (l d : loc) (ob od : obj) (name v c : val) (cs c_data : list val)
  (updates : list (string * val)) (client : client) (st : store) :
  flatten_update_paths updates = [("data.string_value", v)] ->
  heap st !! l = Some ob ->
  attrs ob !! "custom_metadata" = Some (VList (c :: cs)) ->
  metadata_to_proto (VList (c :: cs)) = Ok c_data ->
  attrs ob !! "name" = Some name ->
  attrs ob !! "data" = Some (VRef d) ->
  l <> d -> heap st !! d = Some od -> cls od = "ChunkData" ->
  Chunk.update flatten_update_paths (VRef l) updates client st
  = (Raise (AttributeError "_to_dict"),
     Store
       (<[d := Obj (cls od) (<["string_value" := v]> (attrs od))]>
          (<[l := Obj (cls ob)
                    (<["custom_metadata" := VList c_data]> (attrs ob))]>
             (heap st)))
       (next st) (calls st)).
Proof.
  intros Hflat Hl Hcm Hproto Hname Hdata Hne Hd Hcls.
  unfold Chunk.update, bind.
  rewrite (getattr_ref l ob _ _ st Hl Hcm). unfold lift. rewrite Hproto.
  rewrite (setattr_ref l ob _ _ st Hl).
  rewrite for_each_validate, Hflat.
  cbn [PyDict.keys map fst find String.eqb Ascii.eqb Bool.eqb negb for_each].
  unfold bind, Chunk._apply_update, _apply_update.
  change (split "." "data.string_value") with ["data"; "string_value"].
  cbn [apply_parts fst snd]. unfold bind.
  set (ob1 := Obj (cls ob) (<["custom_metadata" := VList c_data]> (attrs ob))).
  set (st1 := Store (<[l := ob1]> (heap st)) (next st) (calls st)).
  assert (Hl1 : heap st1 !! l = Some ob1) by apply lookup_insert_eq.
  assert (Hd1 : heap st1 !! d = Some od)
    by (unfold st1; simpl; now rewrite lookup_insert_ne).
  rewrite (getattr_ref l ob1 "data" (VRef d) st1 Hl1)
    by (unfold ob1; simpl; now rewrite lookup_insert_ne).
  rewrite (setattr_ref d od _ _ st1 Hd1). cbn [ret].
  set (od2 := Obj (cls od) (<["string_value" := v]> (attrs od))).
  set (st2 := Store (<[d := od2]> (heap st1)) (next st1) (calls st1)).
  assert (Hl2 : heap st2 !! l = Some ob1)
    by (unfold st2; simpl; rewrite lookup_insert_ne by congruence;
        exact Hl1).
  assert (Hd2 : heap st2 !! d = Some od2) by apply lookup_insert_eq.
  unfold Chunk.to_dict, bind.
  rewrite (getattr_ref l ob1 "name" name st2 Hl2)
    by (unfold ob1; simpl; now rewrite lookup_insert_ne).
  rewrite (getattr_ref l ob1 "data" (VRef d) st2 Hl2)
    by (unfold ob1; simpl; now rewrite lookup_insert_ne).
  unfold Chunk.asdict. rewrite Hd2. unfold od2 at 1 2. cbn [cls attrs].
  rewrite Hcls. cbn [String.eqb Ascii.eqb Bool.eqb].
  rewrite lookup_insert_eq.
  rewrite (getattr_ref l ob1 "custom_metadata" (VList c_data) st2 Hl2)
    by (unfold ob1; simpl; apply lookup_insert_eq).
  apply metadata_to_proto_cons in Hproto as (p & ps & -> & Hp).
  apply _to_proto_is_proto in Hp as [fields ->].
  reflexivity.
Qed.

(** X7 on the sample chunk with one metadata entry. *)
Lemma Chunk_update_with_metadata_witness :
  fst (Chunk.update utils.flatten_update_paths (VRef 1%positive)
         [("data", VDict [("string_value", VStr "new")])] accepting
         metadata_chunk_store)
  = Raise (AttributeError "_to_dict") /\
  calls (snd (Chunk.update utils.flatten_update_paths (VRef 1%positive)
                [("data", VDict [("string_value", VStr "new")])] accepting
                metadata_chunk_store))
  = [].
Proof.
  rewrite (Chunk_update_with_metadata utils.flatten_update_paths
             1%positive 2%positive
             (instance_at metadata_chunk_store 1%positive)
             (instance_at metadata_chunk_store 2%positive)
             (VStr "corpora/c/documents/d/chunks/k") (VStr "new")
             (VCustomMetadata (VStr "k") (VStr "v")) []
             [VProto "CustomMetadata"
                [("key", VStr "k"); ("string_value", VStr "v")]]
             [("data", VDict [("string_value", VStr "new")])] accepting
             metadata_chunk_store);
    first [ split; reflexivity | reflexivity | discriminate
          | vm_compute; reflexivity ].
Defined.

(** ** Names in the calls that create, fetch and delete *)

Lemma run_getattr {l : loc} {ob : obj} {a : string} {v : val} (st : store)
  (sn : list rpc) :
  heap st !! l = Some ob -> attrs ob !! a = Some v ->
  run (getattr (VRef l) a) (World st sn) = (Returned v, World st sn).
Proof.
  intros Hl Ha. unfold run. cbn [objects sent].
  now rewrite (getattr_ref l ob a v st Hl Ha).
Qed.

(** What runs on the store sends nothing. *)
Lemma sent_run {A : Type} (m : M A) (w : world) : sent (snd (run m w)) = sent w.
Proof. unfold run. now destruct (m (objects w)) as [[a|e] st]. Qed.

Lemma contains_app (c : ascii) (a b : string) :
  contains c (a ++ b)%string = contains c a || contains c b.
Proof.
  induction a as [|x a IH]; simpl; [reflexivity|]. rewrite IH.
  apply orb_assoc.
Qed.

Lemma slug_no_slash (s : string) :
  string_forallb slug s = true -> contains "/" s = false.
Proof.
  induction s as [|x s IH]; simpl; [reflexivity|]. intros H.
  apply andb_true_iff in H as [Hx Hs]. rewrite (IH Hs), orb_false_r.
  destruct (Ascii.eqb_spec x "/"%char) as [->|]; [discriminate Hx|reflexivity].
Qed.

(** A name that [valid_name] accepts holds no slash. *)
Lemma valid_name_no_slash (n : string) :
  valid_name n = true -> contains "/" n = false.
Proof.
  intros H. apply valid_name_shape in H
    as (c & pre & d & t & -> & Hc & _ & Hpre & Hd & Hend & _).
  cbn [contains]. rewrite contains_app. cbn [contains].
  rewrite (slug_no_slash pre Hpre).
  destruct (Ascii.eqb_spec c "/"%char) as [->|]; [discriminate Hc|].
  destruct (Ascii.eqb_spec d "/"%char) as [->|]; [discriminate Hd|].
  apply at_end_cases in Hend as [->| ->]; reflexivity.
Qed.

(** X8: a short name that [valid_name] accepts is put under the parent in
    one way by all the calls.  On a corpus, [create_document] sends the
    document under the name [<corpus>/documents/<name>], and
    [get_document] and [delete_document] ask for that same name; on a
    document, [create_chunk], [get_chunk] and [delete_chunk] do the same
    with [<document>/chunks/<name>].  Each call sends one request. *)
Theorem create_get_delete_name (str : val -> string)
  (idecode_time : list (string * val) -> string -> result (list (string * val)))
  (strptime : val -> result val)
  (l : loc) (ob : obj) (parent n : string) (display_name force : val)
  (text_ : string) (service : service) (w : world) :
  heap (objects w) !! l = Some ob ->
  attrs ob !! "name" = Some (VStr parent) ->
  valid_name n = true ->
  sent (snd (Corpus_create_document str idecode_time (VRef l) (VStr n)
               display_name VNone service w))
  = sent w ++
    [Rpc "create_document"
       (VProto "CreateDocumentRequest"
          [("parent", VStr parent);
           ("document",
            VProto "Document"
              [("name", VStr (parent ++ "/documents/" ++ n)%string);
               ("display_name", display_name);
               ("custom_metadata", VList [])])])] /\
  sent (snd (Corpus_get_document str idecode_time (VRef l) n service w))
  = sent w ++
    [Rpc "get_document"
       (VProto "GetDocumentRequest"
          [("name", VStr (parent ++ "/documents/" ++ n)%string)])] /\
  sent (snd (Corpus_delete_document str (VRef l) n force service w))
  = sent w ++
    [Rpc "delete_document"
       (VProto "DeleteDocumentRequest"
          [("name", VStr (parent ++ "/documents/" ++ n)%string);
           ("force", bool_ force)])] /\
  sent (snd (Document_create_chunk str idecode_time strptime (VRef l)
               (VStr text_) (VStr n) VNone service w))
  = sent w ++
    [Rpc "create_chunk"
       (VProto "CreateChunkRequest"
          [("parent", VStr parent);
           ("chunk",
            VProto "Chunk"
              [("name", VStr (parent ++ "/chunks/" ++ n)%string);
               ("data", VDict [("string_value", VStr text_)]);
               ("custom_metadata", VList [])])])] /\
  sent (snd (Document_get_chunk str idecode_time strptime (VRef l) n
               service w))
  = sent w ++
    [Rpc "get_chunk"
       (VProto "GetChunkRequest"
          [("name", VStr (parent ++ "/chunks/" ++ n)%string)])] /\
  sent (snd (Document_delete_chunk str (VRef l) n service w))
  = sent w ++
    [Rpc "delete_chunk"
       (VProto "DeleteChunkRequest"
          [("name", VStr (parent ++ "/chunks/" ++ n)%string)])].
Proof.
  destruct w as [st sn]. cbn [objects sent]. intros Hl Hname Hvalid.
  pose proof (valid_name_no_slash n Hvalid) as Hslash.
  unfold Corpus_create_document, Corpus_get_document, Corpus_delete_document,
    Document_create_chunk, Document_get_chunk, Document_delete_chunk,
    created_name, qualified_name.
  rewrite Hvalid, Hslash. unfold bind_N.
  change (run (lift (metadata_to_proto VNone)) (World st sn))
    with (Returned (@nil val), World st sn).
  repeat first
    [ rewrite (run_getattr st sn Hl Hname)
    | progress cbn [unit_N text send objects sent snd] ].
  repeat split;
    match goal with
    | |- context [service ?r] => destruct (service r)
    end; cbn [snd sent]; rewrite ?sent_run; reflexivity.
Qed.

(** X8 on the sample corpus and the name [doc-1]. *)
Lemma create_get_delete_name_witness :
  sent (snd (Corpus_get_document (fun _ => "") (fun d _ => Ok d)
               (VRef 1%positive) "doc-1" obliging corpus_world))
  = [Rpc "get_document"
       (VProto "GetDocumentRequest"
          [("name", VStr "corpora/c/documents/doc-1")])].
Proof.
  apply (create_get_delete_name (fun _ => "") (fun d _ => Ok d) no_strptime
           1%positive
           (Corpus_obj (VStr "corpora/c") (VStr "old title") VNone VNone)
           "corpora/c" "doc-1" VNone VNone "" obliging corpus_world);
    reflexivity.
Defined.



(** X10: [create_chunk] reads the text of a [ChunkData] and then goes on as
    for a string: with the instance at [d] holding the string [s], the call
    with the reference and the call with [s] itself end alike, in what they
    return, in the store and in what they send. *)
Theorem create_chunk_data_forms (str : val -> string)
  (idecode_time : list (string * val) -> string -> result (list (string * val)))
  (strptime : val -> result val)
  (self name custom_metadata : val) (d : loc) (od : obj) (s : string)
  (service : service) (w : world) :
  heap (objects w) !! d = Some od ->
  attrs od !! "string_value" = Some (VStr s) ->
  Document_create_chunk str idecode_time strptime self (VRef d) name
    custom_metadata service w
  = Document_create_chunk str idecode_time strptime self (VStr s) name
      custom_metadata service w.
Proof.
  destruct w as [st sn]. cbn [objects]. intros Hd Hs.
  unfold Document_create_chunk, bind_N.
  destruct (run (lift (metadata_to_proto custom_metadata)) (World st sn))
    as [[c_data|e] w1] eqn:Hcm; [|reflexivity].
  assert (w1 = World st sn) as ->.
  { unfold run, lift in Hcm. cbn [objects sent] in Hcm.
    destruct (metadata_to_proto custom_metadata); now injection Hcm. }
  destruct (created_name str self name "chunks" (World st sn))
    as [[full|e] w2] eqn:Hname; [|reflexivity].
  assert (w2 = World st sn) as ->.
  { unfold created_name in Hname.
    destruct name; try (now injection Hname).
    destruct (valid_name s0); [|discriminate].
    unfold bind_N, run in Hname. cbn [objects sent] in Hname.
    pose proof (getattr_store self "name" st) as Hst.
    destruct (getattr self "name" st) as [[v|e] st1]; simpl in Hst; subst st1;
      [now injection Hname|discriminate]. }
  now rewrite (run_getattr st sn Hd Hs).
Qed.

(** X10 on the sample document and the [ChunkData] beside it: both calls
    send the chunk with the text of the [ChunkData] and return the chunk
    that the service answers with. *)
Lemma create_chunk_data_forms_witness :
  Document_create_chunk (fun _ => "") (fun d _ => Ok d) no_strptime
    (VRef 1%positive) (VRef 2%positive) (VStr "k1") VNone storing draft_world
  = Document_create_chunk (fun _ => "") (fun d _ => Ok d) no_strptime
      (VRef 1%positive) (VStr "some text") (VStr "k1") VNone storing
      draft_world /\
  fst (Document_create_chunk (fun _ => "") (fun d _ => Ok d) no_strptime
         (VRef 1%positive) (VRef 2%positive) (VStr "k1") VNone storing
         draft_world)
  = Returned (VRef 3%positive) /\
  sent (snd (Document_create_chunk (fun _ => "") (fun d _ => Ok d)
               no_strptime (VRef 1%positive) (VRef 2%positive) (VStr "k1")
               VNone storing draft_world))
  = [Rpc "create_chunk"
       (VProto "CreateChunkRequest"
          [("parent", VStr "corpora/c/documents/d");
           ("chunk",
            VProto "Chunk"
              [("name", VStr "corpora/c/documents/d/chunks/k1");
               ("data", VDict [("string_value", VStr "some text")]);
               ("custom_metadata", VList [])])])].
Proof.
  split.
  - apply (create_chunk_data_forms (fun _ => "") (fun d _ => Ok d) no_strptime
             (VRef 1%positive) (VStr "k1") VNone 2%positive
             (ChunkData_obj (VStr "some text")) "some text" storing
             draft_world); reflexivity.
  - rewrite (create_chunk_data_forms (fun _ => "") (fun d _ => Ok d)
               no_strptime (VRef 1%positive) (VStr "k1") VNone 2%positive
               (ChunkData_obj (VStr "some text")) "some text" storing
               draft_world eq_refl eq_refl).
    split; vm_compute; reflexivity.
Defined.

(** ** Batches *)

Lemma create_chunk_requests_strings (str : val -> string) (l : loc)
  (ob : obj) (parent : string) (st : store) (ss : list string) :
  heap st !! l = Some ob -> attrs ob !! "name" = Some (VStr parent) ->
  forall i,
    create_chunk_requests str (VRef l) i (map VStr ss) st
    = (Ok (imap
             (fun j s =>
                VProto "CreateChunkRequest"
                  [("parent", VStr parent);
                   ("chunk",
                    VProto "Chunk"
                      [("data", VDict [("string_value", VStr s)]);
                       ("name",
                        VStr (parent ++ "/chunks/" ++ decimal (i + j))%string)])])
             ss), st).
Proof.
  intros Hl Hname. induction ss as [|s ss IH]; intros i; [reflexivity|].
  cbn [map create_chunk_requests]. unfold bind at 1.
  cbn [lift Document._make_chunk is_proto]. unfold bind.
  rewrite !(getattr_ref l ob _ _ st Hl Hname). rewrite IH.
  cbn [ret imap chunk_name PyDict.get PyDict.set String.eqb Ascii.eqb
         Bool.eqb text].
  rewrite Nat.add_0_r. unfold ret. do 3 f_equal.
  apply imap_ext. intros j x _. cbn [compose].
  now replace (S i + j) with (i + S j) by lia.
Qed.

Lemma create_chunk_requests_named (str : val -> string) (l : loc)
  (ob : obj) (parent : string) (st : store) (items : list (string * string)) :
  heap st !! l = Some ob -> attrs ob !! "name" = Some (VStr parent) ->
  Forall (fun kv => fst kv <> "") items ->
  forall i,
    create_chunk_requests str (VRef l) i
      (map flatten_item (map (fun kv => (fst kv, VStr (snd kv))) items)) st
    = (Ok (map
             (fun kv =>
                VProto "CreateChunkRequest"
                  [("parent", VStr parent);
                   ("chunk",
                    VProto "Chunk"
                      [("name", VStr (parent ++ "/chunks/" ++ fst kv)%string);
                       ("data", VDict [("string_value", VStr (snd kv))]);
                       ("custom_metadata", VNone)])])
             items), st).
Proof.
  intros Hl Hname Hall. induction Hall as [|[n t] items Hn _ IH]; intros i;
    [reflexivity|].
  cbn [map create_chunk_requests flatten_item fst snd]. unfold bind at 1.
  cbn [lift Document._make_chunk is_proto bind_result List.length].
  unfold bind. rewrite !(getattr_ref l ob _ _ st Hl Hname). rewrite IH.
  cbn [chunk_name PyDict.get String.eqb Ascii.eqb Bool.eqb text].
  simpl in Hn. apply String.eqb_neq in Hn. rewrite Hn.
  unfold ret. reflexivity.
Qed.

(** X11: [_make_batch_create_chunk_request] names what it sends.  A list of
    bare strings gives one request per string, in order, the chunk at
    position [i] named [<document>/chunks/<i>]; a mapping from names that
    are not empty to texts gives one request per item, in order, named
    [<document>/chunks/<name>], whatever the name holds: it is neither
    checked by [valid_name] nor left alone when it has a slash.  The store
    is not touched. *)
Theorem _make_batch_create_chunk_request_names (str : val -> string)
  (l : loc) (ob : obj) (parent : string) (st : store) :
  heap st !! l = Some ob -> attrs ob !! "name" = Some (VStr parent) ->
  (forall ss,
      Document__make_batch_create_chunk_request str (VRef l)
        (VList (map VStr ss)) st
      = (Ok (VProto "BatchCreateChunksRequest"
               [("parent", VStr parent);
                ("requests",
                 VList
                   (imap
                      (fun i s =>
                         VProto "CreateChunkRequest"
                           [("parent", VStr parent);
                            ("chunk",
                             VProto "Chunk"
                               [("data", VDict [("string_value", VStr s)]);
                                ("name",
                                 VStr (parent ++ "/chunks/" ++ decimal i)
                                        %string)])])
                      ss))]), st)) /\
  (forall items : list (string * string),
      Forall (fun kv => fst kv <> "") items ->
      Document__make_batch_create_chunk_request str (VRef l)
        (VDict (map (fun kv => (fst kv, VStr (snd kv))) items)) st
      = (Ok (VProto "BatchCreateChunksRequest"
               [("parent", VStr parent);
                ("requests",
                 VList
                   (map
                      (fun kv =>
                         VProto "CreateChunkRequest"
                           [("parent", VStr parent);
                            ("chunk",
                             VProto "Chunk"
                               [("name",
                                 VStr (parent ++ "/chunks/" ++ fst kv)%string);
                                ("data",
                                 VDict [("string_value", VStr (snd kv))]);
                                ("custom_metadata", VNone)])])
                      items))]), st)).
Proof.
  intros Hl Hname. split.
  - intros ss. unfold Document__make_batch_create_chunk_request.
    cbn [is_proto]. unfold bind, lift. cbn [iter].
    rewrite (create_chunk_requests_strings str l ob parent st ss Hl Hname 0).
    now rewrite (getattr_ref l ob _ _ st Hl Hname).
  - intros items Hall. unfold Document__make_batch_create_chunk_request.
    cbn [is_proto]. unfold bind, lift.
    rewrite (create_chunk_requests_named str l ob parent st items Hl Hname
               Hall 0).
    now rewrite (getattr_ref l ob _ _ st Hl Hname).
Qed.

(** X11 on two bare strings under the sample document. *)
Lemma _make_batch_create_chunk_request_names_witness :
  fst (Document__make_batch_create_chunk_request (fun _ => "")
         (VRef 1%positive) (VList (map VStr ["first"; "second"]))
         document_store)
  = Ok (VProto "BatchCreateChunksRequest"
          [("parent", VStr "corpora/c/documents/d");
           ("requests",
            VList
              [VProto "CreateChunkRequest"
                 [("parent", VStr "corpora/c/documents/d");
                  ("chunk",
                   VProto "Chunk"
                     [("data", VDict [("string_value", VStr "first")]);
                      ("name", VStr "corpora/c/documents/d/chunks/0")])];
               VProto "CreateChunkRequest"
                 [("parent", VStr "corpora/c/documents/d");
                  ("chunk",
                   VProto "Chunk"
                     [("data", VDict [("string_value", VStr "second")]);
                      ("name", VStr "corpora/c/documents/d/chunks/1")])]])]).
Proof.
  rewrite (proj1 (_make_batch_create_chunk_request_names (fun _ => "")
                    1%positive
                    (Document_obj (VStr "corpora/c/documents/d")
                       (VStr "old title") (VList []) VNone VNone)
                    "corpora/c/documents/d" document_store
                    eq_refl eq_refl) ["first"; "second"]).
  reflexivity.
Defined.

Lemma forallb_not_request (names : list string) :
  names <> [] ->
  forallb (is_proto "DeleteChunkRequest") (map VStr names) = false.
Proof. destruct names; [congruence|reflexivity]. Qed.

(** X12: [batch_delete_chunks] walks its argument before anything else:
    what cannot be iterated fails there with [TypeError], not with the
    [ValueError] the method ends with, and nothing is sent.  A list of
    names that is not empty becomes one delete request per name, in order,
    under one batch request, each name as it was given: unlike
    [delete_chunk], the batch does not put a short name under the
    document. *)
Theorem batch_delete_chunks_requests (self chunks : val) (service : service)
  (w : world) :
  (forall e,
      iter chunks = Raise e ->
      Document_batch_delete_chunks self chunks service w
      = (Failed (Raised e), w)) /\
  (forall l ob parent names,
      self = VRef l -> chunks = VList (map VStr names) -> names <> [] ->
      heap (objects w) !! l = Some ob ->
      attrs ob !! "name" = Some (VStr parent) ->
      sent (snd (Document_batch_delete_chunks self chunks service w))
      = sent w ++
        [Rpc "batch_delete_chunks"
           (VProto "BatchDeleteChunksRequest"
              [("parent", VStr parent);
               ("requests",
                VList
                  (map (fun n => VProto "DeleteChunkRequest" [("name", VStr n)])
                     names))])]).
Proof.
  destruct w as [st sn]. unfold Document_batch_delete_chunks, bind_N.
  unfold run at 1. unfold lift, is_iterable. cbn [objects sent].
  split.
  - intros e ->. reflexivity.
  - intros l ob parent names -> -> Hnames Hl Hname. cbn [iter].
    change (run (fun st0 : store => (Ok (map VStr names), st0)) (World st sn))
      with (Returned (map VStr names), World st sn).
    cbv beta iota. rewrite (forallb_not_request names Hnames).
    rewrite (run_getattr st sn Hl Hname). unfold send. cbn [objects sent].
    rewrite map_map.
    match goal with
    | |- context [service ?r] => destruct (service r)
    end; reflexivity.
Qed.

(** X12 on two names under the sample document, and on a number. *)
Lemma batch_delete_chunks_requests_witness :
  sent (snd (Document_batch_delete_chunks (VRef 1%positive)
               (VList (map VStr ["a"; "b"])) obliging document_world))
  = [Rpc "batch_delete_chunks"
       (VProto "BatchDeleteChunksRequest"
          [("parent", VStr "corpora/c/documents/d");
           ("requests",
            VList [VProto "DeleteChunkRequest" [("name", VStr "a")];
                   VProto "DeleteChunkRequest" [("name", VStr "b")]])])] /\
  Document_batch_delete_chunks (VRef 1%positive) (VNum 3) obliging
    document_world
  = (Failed (Raised (TypeError (VNum 3))), document_world).
Proof.
  split.
  - apply (proj2 (batch_delete_chunks_requests (VRef 1%positive)
                    (VList (map VStr ["a"; "b"])) obliging document_world)
             1%positive
             (Document_obj (VStr "corpora/c/documents/d") (VStr "old title")
                (VList []) VNone VNone)
             "corpora/c/documents/d" ["a"; "b"]);
      first [reflexivity | discriminate].
  - apply (proj1 (batch_delete_chunks_requests (VRef 1%positive)
                    (VNum 3) obliging document_world)).
    reflexivity.
Defined.

(** ** Queries with a filter that does not convert *)



(** ** Updates with nothing to update *)

(** X14: an update whose flattened dictionary is empty is not stopped: on a
    corpus and on a document, [update] changes nothing in the instance and
    still sends the request, with the snapshot as it is and an empty mask,
    and returns the instance when the service accepts. *)
Theorem update_nothing
  (flatten_update_paths : list (string * val) -> list (string * val))
  (updates : list (string * val)) (l : loc) (ob : obj)
  (name display_name : val) (client : client) (st : store) :
  flatten_update_paths updates = [] ->
  heap st !! l = Some ob ->
  attrs ob !! "name" = Some name ->
  attrs ob !! "display_name" = Some display_name ->
  Corpus.update flatten_update_paths (VRef l) updates client st
  = (let request :=
       update_corpus
         (VDict [("name", name); ("display_name", display_name)]) [] in
     (match client request with
      | Ok _ => Ok (VRef l)
      | Raise e => Raise e
      end,
      Store (heap st) (next st) (calls st ++ [request]))) /\
  (forall custom_metadata,
      attrs ob !! "custom_metadata" = Some custom_metadata ->
      Document.update flatten_update_paths (VRef l) updates client st
      = (let request :=
           update_document
             (VDict [("name", name); ("display_name", display_name);
                     ("custom_metadata", custom_metadata)]) [] in
         (match client request with
          | Ok _ => Ok (VRef l)
          | Raise e => Raise e
          end,
          Store (heap st) (next st) (calls st ++ [request])))).
Proof.
  intros Hflat Hl Hname Hdn. split; [|intros custom_metadata Hcm];
    unfold Corpus.update, Document.update, bind;
    rewrite for_each_validate, Hflat;
    cbn [PyDict.keys map find for_each ret];
    unfold Corpus.to_dict, Document.to_dict, bind;
    rewrite (getattr_ref l ob _ _ st Hl Hname),
      (getattr_ref l ob _ _ st Hl Hdn);
    [|rewrite (getattr_ref l ob _ _ st Hl Hcm)];
    unfold ret, remote; cbn zeta;
    match goal with
    | |- context [client ?r] => destruct (client r)
    end; reflexivity.
Qed.

(** X14 on the sample corpus and the empty dictionary. *)
Lemma update_nothing_witness :
  calls (snd (Corpus.update utils.flatten_update_paths (VRef 1%positive) []
                accepting corpus_store))
  = [update_corpus
       (VDict [("name", VStr "corpora/c"); ("display_name", VStr "old title")])
       []].
Proof.
  rewrite (proj1 (update_nothing utils.flatten_update_paths [] 1%positive
                    (Corpus_obj (VStr "corpora/c") (VStr "old title")
                       VNone VNone)
                    (VStr "corpora/c") (VStr "old title") accepting
                    corpus_store eq_refl eq_refl eq_refl eq_refl)).
  reflexivity.
Defined.

(** ** A chunk as its constructor leaves it *)

(** X15: a chunk built from a string as [data] reads back through
    [to_dict].  When the state converts, the metadata are absent or all
    convert, and the times are absent or parse, the constructor returns a
    new instance, and [to_dict] on it gives the name as passed, the string
    under [string_value], the state as the member [to_state] found, and
    the metadata entry by entry as [_to_dict] gives them, provided each
    has one. *)
Theorem Chunk_init_to_dict (strptime : val -> result val)
  (name custom_metadata state create_time update_time : val) (text : string)
  (so : StateOptions) (s : State) (ct ut : val) (cms ds : list val)
  (st : store) :
  Chunk.state_options state = Ok so -> to_state so = Ok s ->
  Chunk.decode_time strptime create_time = Ok ct ->
  Chunk.decode_time strptime update_time = Ok ut ->
  (custom_metadata = VNone /\ cms = []) \/
  (exists xs,
      iter custom_metadata = Ok xs /\
      map_result make_custom_metadata xs = Ok cms) ->
  map_result CustomMetadata._to_dict cms = Ok ds ->
  exists st',
    Chunk.__init__ strptime name (VStr text) custom_metadata state create_time
      update_time st
    = (Ok (VRef (next st)), st') /\
    calls st' = calls st /\
    Chunk.to_dict (VRef (next st)) st'
    = (Ok (VDict [("name", name);
                  ("data", VDict [("string_value", VStr text)]);
                  ("custom_metadata", VList ds);
                  ("state", VState s)]),
       st').
Proof.
  intros Hso Hs Hct Hut Hcm Hds.
  assert (Hne : Pos.succ (next st) <> next st) by lia.
  assert (Hmeta : forall st0 ob,
    heap st0 !! next st = Some ob ->
    match custom_metadata with
    | VNone => setattr (VRef (next st)) "custom_metadata" (VList [])
    | _ =>
        cms <- lift (iter custom_metadata) ;;
        cms' <- lift (map_result make_custom_metadata cms) ;;
        setattr (VRef (next st)) "custom_metadata" (VList cms')
    end%py st0
    = setattr (VRef (next st)) "custom_metadata" (VList cms) st0).
  { intros st0 ob Hob.
    destruct Hcm as [[-> ->]|(xs & Hxs & Hcms)]; [reflexivity|].
    assert (custom_metadata <> VNone) by (intros ->; discriminate).
    destruct custom_metadata; try congruence;
      unfold bind, lift; rewrite Hxs, Hcms; reflexivity. }
  eexists. split; [|split].
  - unfold Chunk.__init__. unfold bind at 1. cbn [new].
    unfold bind at 1. unfold setattr at 1. cbn [heap next calls].
    rewrite lookup_insert_eq. cbn [cls attrs list_to_map foldr].
    unfold bind at 1. unfold bind at 1. cbn [new heap next calls].
    unfold setattr at 1. cbn [heap next calls].
    rewrite lookup_insert_ne by exact Hne. rewrite lookup_insert_eq.
    cbn [cls attrs].
    unfold bind at 1. erewrite Hmeta.
    2:{ cbn [heap]. apply lookup_insert_eq. }
    unfold setattr at 1. cbn [heap next calls]. rewrite lookup_insert_eq.
    cbn [cls attrs].
    unfold bind at 1. unfold lift at 1. rewrite Hso.
    unfold bind at 1. unfold lift at 1. rewrite Hs.
    unfold bind at 1. unfold setattr at 1. cbn [heap next calls].
    rewrite lookup_insert_eq. cbn [cls attrs].
    unfold bind at 1. unfold lift at 1. rewrite Hct.
    unfold bind at 1. unfold setattr at 1. cbn [heap next calls].
    rewrite lookup_insert_eq. cbn [cls attrs].
    unfold bind at 1. unfold lift at 1. rewrite Hut.
    unfold bind at 1. unfold setattr at 1. cbn [heap next calls].
    rewrite lookup_insert_eq. cbn [cls attrs].
    unfold ret. reflexivity.
  - reflexivity.
  - match goal with
    | |- context [Store (<[next st := ?o]> ?h) ?n ?c] =>
        set (ob := o); set (st' := Store (<[next st := ob]> h) n c)
    end.
    assert (Hl : heap st' !! next st = Some ob) by apply lookup_insert_eq.
    assert (Hd : Chunk.asdict (VRef (Pos.succ (next st))) st'
                 = (Ok (VDict [("string_value", VStr text)]), st')).
    { unfold Chunk.asdict, st'. cbn [heap].
      rewrite !lookup_insert_ne by (apply not_eq_sym, Hne).
      rewrite lookup_insert_eq.
      cbn [cls attrs String.eqb Ascii.eqb Bool.eqb list_to_map foldr].
      now rewrite lookup_insert_eq. }
    assert (Hattr :
      attrs ob !! "name" = Some name /\
      attrs ob !! "data" = Some (VRef (Pos.succ (next st))) /\
      attrs ob !! "custom_metadata" = Some (VList cms) /\
      attrs ob !! "state" = Some (VState s)).
    { unfold ob. cbn [attrs].
      repeat split;
        repeat first [ apply lookup_insert_eq
                     | rewrite lookup_insert_ne by discriminate ]. }
    destruct Hattr as (Hname & Hdata & Hmd & Hstate).
    unfold Chunk.to_dict, bind.
    rewrite (getattr_ref _ _ _ _ st' Hl Hname). cbv beta iota.
    rewrite (getattr_ref _ _ _ _ st' Hl Hdata). cbv beta iota.
    rewrite Hd.
    rewrite (getattr_ref _ _ _ _ st' Hl Hmd). unfold lift. cbn [iter].
    rewrite Hds. rewrite (getattr_ref _ _ _ _ st' Hl Hstate). reflexivity.
Qed.

(** X15 on a chunk with one metadata entry and the state by its name. *)
Lemma Chunk_init_to_dict_witness :
  exists st',
    Chunk.__init__ no_strptime (VStr "corpora/c/documents/d/chunks/k")
      (VStr "hello")
      (VList [VDict [("key", VStr "genre"); ("string_value", VStr "drama")]])
      (VStr "state_active") VNone VNone empty_store
    = (Ok (VRef (next empty_store)), st') /\
    calls st' = calls empty_store /\
    Chunk.to_dict (VRef (next empty_store)) st'
    = (Ok (VDict [("name", VStr "corpora/c/documents/d/chunks/k");
                  ("data", VDict [("string_value", VStr "hello")]);
                  ("custom_metadata",
                   VList [VDict [("key", VStr "genre");
                                 ("string_value", VStr "drama")]]);
                  ("state", VState STATE_ACTIVE)]),
       st').
Proof.
  apply (Chunk_init_to_dict no_strptime (VStr "corpora/c/documents/d/chunks/k")
           (VList [VDict [("key", VStr "genre");
                          ("string_value", VStr "drama")]])
           (VStr "state_active") VNone VNone "hello" (OfStr "state_active")
           STATE_ACTIVE VNone VNone
           [VCustomMetadata (VStr "genre") (VStr "drama")]
           [VDict [("key", VStr "genre"); ("string_value", VStr "drama")]]
           empty_store);
    first [ reflexivity
          | right; eexists; split; reflexivity ].
Defined.
